(** * Career Redirector: the resolution cascade of [app.py]

    A shallow embedding of the helper functions of [app.py]
    ([normalize_company], [is_valid_url], [safe_head],
    [discover_careers_from_domain], [ddg_first_result],
    [openai_guess_company_and_urls], [best_urls_from_all_signals]) and the
    properties of the resolution cascade.

    Conventions of the embedding.
    - Python [str] values are [string]s of ASCII characters.
    - Library functions whose code is not part of [app.py] ([urlparse],
      [urljoin], [json.loads], [re.search] with the salvage pattern, the
      BeautifulSoup queries) are the fields of a [Library] record; a field
      returns [None] where the Python function raises.
    - The network (HTTP servers, the search engine, the language-model API)
      is a [Network] record of oracles.  An oracle sees the list of requests
      issued so far, so the same request may be answered differently at
      different times.
    - Code that performs requests or may raise lives in the monad [M]: a
      computation takes the history of requests and returns an [outcome]
      (a value or a raised exception) and the extended history. *)

From Stdlib Require Import String Ascii List ZArith Bool Lia.
Import ListNotations.
Local Open Scope string_scope.

(** ** Python string operations (ASCII) *)

Module PyStr.

Definition code (c : ascii) : nat := nat_of_ascii c.

Definition between (lo hi : nat) (c : ascii) : bool :=
  Nat.leb lo (code c) && Nat.leb (code c) hi.

(** [str.isspace] on ASCII: TAB..CR, FS..US and the space. *)
Definition is_space (c : ascii) : bool :=
  between 9 13 c || between 28 32 c.

(** [\w] on ASCII: letters, digits and the underscore. *)
Definition is_word (c : ascii) : bool :=
  between 48 57 c || between 65 90 c || between 97 122 c || Nat.eqb (code c) 95.

Definition lower_char (c : ascii) : ascii :=
  if between 65 90 c then ascii_of_nat (code c + 32) else c.

Fixpoint lower (s : string) : string :=
  match s with
  | EmptyString => EmptyString
  | String c r => String (lower_char c) (lower r)
  end.

Definition is_empty (s : string) : bool :=
  match s with EmptyString => true | _ => false end.

Fixpoint lstrip (s : string) : string :=
  match s with
  | EmptyString => EmptyString
  | String c r => if is_space c then lstrip r else s
  end.

Fixpoint rstrip (s : string) : string :=
  match s with
  | EmptyString => EmptyString
  | String c r =>
      let r' := rstrip r in
      if is_space c && is_empty r' then EmptyString else String c r'
  end.

Definition strip (s : string) : string := rstrip (lstrip s).

(** [sub in s] *)
Fixpoint contains (s sub : string) : bool :=
  prefix sub s ||
  match s with
  | EmptyString => false
  | String _ r => contains r sub
  end.

Fixpoint last_char (s : string) : option ascii :=
  match s with
  | EmptyString => None
  | String c EmptyString => Some c
  | String _ r => last_char r
  end.

(** [s.endswith("/")] *)
Definition endswith_slash (s : string) : bool :=
  match last_char s with
  | Some c => Ascii.eqb c "/"
  | None => false
  end.

Fixpoint drop (n : nat) (s : string) : string :=
  match n, s with
  | O, _ => s
  | S k, EmptyString => EmptyString
  | S k, String _ r => drop k r
  end.

Definition head (s : string) : option ascii :=
  match s with
  | EmptyString => None
  | String c _ => Some c
  end.

End PyStr.

(** ** [normalize_company] *)

(** The character classes of [PyStr] are those of the ASCII range, so the
    definitions of this part are the source's on ASCII text; the
    properties of hints below are stated for ASCII input. *)

(** The alternatives of [\b(inc|inc\.|llc|corp|co\.|company|ltd)\b], in the
    order the pattern lists them. *)
Definition LEGAL_TOKENS : list string :=
  ["inc"; "inc."; "llc"; "corp"; "co."; "company"; "ltd"].

Definition word_opt (c : option ascii) : bool :=
  match c with
  | Some a => PyStr.is_word a
  | None => false
  end.

(** [\b] between the character before and the character after a position. *)
Definition boundary (before after : option ascii) : bool :=
  xorb (word_opt before) (word_opt after).

(** A token matches at the head of [s] when it is a prefix of [s] and a word
    boundary follows it. *)
Definition token_matches (s tok : string) : bool :=
  prefix tok s &&
  boundary (PyStr.last_char tok) (PyStr.head (PyStr.drop (String.length tok) s)).

(** Length of the match of the legal-token pattern at the head of [s], the
    previous character being [prev]: the first alternative that matches. *)
Definition match_legal (prev : option ascii) (s : string) : option nat :=
  if boundary prev (PyStr.head s)
  then option_map String.length (find (token_matches s) LEGAL_TOKENS)
  else None.

(** [re.sub(pattern, "", s)], scanning from the left; [skip] counts the
    characters of the current match still to be dropped. *)
Fixpoint drop_legal (prev : option ascii) (skip : nat) (s : string) : string :=
  match s with
  | EmptyString => EmptyString
  | String c r =>
      match skip with
      | S k => drop_legal (Some c) k r
      | O =>
          match match_legal prev s with
          | Some (S k) => drop_legal (Some c) k r
          | _ => String c (drop_legal (Some c) 0 r)
          end
      end
  end.

(** [re.sub(r"\s+", " ", s)] *)
Fixpoint collapse_ws (in_run : bool) (s : string) : string :=
  match s with
  | EmptyString => EmptyString
  | String c r =>
      if PyStr.is_space c
      then if in_run then collapse_ws true r else String " " (collapse_ws true r)
      else String c (collapse_ws false r)
  end.

Definition normalize_company (user_text : string) : string :=
  let hint := PyStr.lower (PyStr.strip user_text) in
  let hint := drop_legal None 0 hint in
  PyStr.strip (collapse_ws false hint).

(** ** Python values *)

(** The values [json.loads] produces and the orchestrator passes around.
    Only the truth value of a float is observed by the code, so a float is
    represented by whether it is zero. *)
#[local] Set Warnings "-register-all".
Inductive pyval : Type :=
| PNone
| PBool (b : bool)
| PInt (z : Z)
| PFloat (is_zero : bool)
| PStr (s : string)
| PList (items : list pyval)
| PDict (entries : list (string * pyval)).

Definition pydict : Type := list (string * pyval).

(** Python truthiness. *)
Definition truthy (v : pyval) : bool :=
  match v with
  | PNone => false
  | PBool b => b
  | PInt z => negb (Z.eqb z 0)
  | PFloat is_zero => negb is_zero
  | PStr s => negb (PyStr.is_empty s)
  | PList items => match items with [] => false | _ => true end
  | PDict entries => match entries with [] => false | _ => true end
  end.

(** [d.get(k)]: the value bound to [k], or [None]. *)
Fixpoint dict_get (d : pydict) (k : string) : pyval :=
  match d with
  | [] => PNone
  | (k', v) :: rest => if String.eqb k' k then v else dict_get rest k
  end.

(** An optional string as a Python value ([None] or a [str]). *)
Definition py_of_opt (o : option string) : pyval :=
  match o with
  | Some s => PStr s
  | None => PNone
  end.

(** [a or b] on values already computed. *)
Definition py_or (a b : pyval) : pyval := if truthy a then a else b.

(** ** Configuration and tables *)

(** The module-level settings: [openai_api_key] and the selected [model]. *)
Record Config : Type := mkConfig {
  openai_api_key : string;
  model : string
}.

(** [client = OpenAI(api_key=openai_api_key) if openai_api_key else None];
    [true] when a client exists. *)
Definition client (cfg : Config) : bool :=
  negb (PyStr.is_empty (openai_api_key cfg)).

Definition COMMON_CAREER_PATHS : list string :=
  [ "careers";
    "jobs";
    "company/careers";
    "about/careers";
    "about-us/careers";
    "career";
    "join-us";
    "work-with-us" ].

(** A Python dict iterates in insertion order: an association list. *)
Definition POPULAR_DOMAINS : list (string * string) :=
  [ ("google", "https://about.google");
    ("microsoft", "https://www.microsoft.com");
    ("apple", "https://www.apple.com");
    ("amazon", "https://www.amazon.com");
    ("meta", "https://about.meta.com");
    ("netflix", "https://www.netflix.com");
    ("tesla", "https://www.tesla.com");
    ("nvidia", "https://www.nvidia.com");
    ("openai", "https://openai.com");
    ("uber", "https://www.uber.com");
    ("airbnb", "https://www.airbnb.com");
    ("stripe", "https://stripe.com");
    ("salesforce", "https://www.salesforce.com");
    ("oracle", "https://www.oracle.com") ].

(** ** Libraries *)

(** The components of [urlparse(url)] the code reads. *)
Record ParseResult : Type := mkParse {
  scheme : string;
  netloc : string;
  path : string
}.

(** An anchor as [soup.find_all("a", href=True)] yields it: the [href]
    attribute and [get_text()]. *)
Record Anchor : Type := mkAnchor {
  href : string;
  anchor_text : string
}.

(** Library functions used by [app.py].  [None] stands for a raised
    exception, except for [re_search_triple], where it is "no match". *)
Record Library : Type := mkLibrary {
  (** [urllib.parse.urlparse]; raises [ValueError] on some inputs. *)
  urlparse : string -> option ParseResult;
  (** [urllib.parse.urljoin]; parses its base, so it can raise as well. *)
  urljoin : string -> string -> option string;
  (** [json.loads] *)
  json_loads : string -> option pyval;
  (** [re.search] with the pattern that salvages a JSON object holding the
      three keys, flag [re.S]; the result is [m.group(0)]. *)
  re_search_triple : string -> option string;
  (** [BeautifulSoup(text, "html.parser").find_all("a", href=True)] *)
  soup_anchors : string -> option (list Anchor);
  (** [BeautifulSoup(text, "html.parser").select(".result__a")], each
      element given by [a.get("href")]. *)
  soup_result_links : string -> option (list (option string))
}.

(** ** The network *)

Inductive Request : Type :=
| ReqHead (url : string)
| ReqGet (url : string)
| ReqSearch (query : string)
| ReqChat (model_name : string) (user_msg : string) (json_mode : bool)
| ReqResponses (model_name : string) (user_msg : string).

Definition History : Type := list Request.

(** What the third request shape yields: [resp.output_text] and the
    non-[None] values [c.text.value] met while walking [resp.output]. *)
Record ResponsesReply : Type := mkResponsesReply {
  output_text : option string;
  block_texts : list string
}.

(** Each oracle receives the requests issued before the one it answers.
    [None] stands for a raised exception (DNS, TLS, timeout, refused URL,
    authentication, an API shape the SDK does not have, ...). *)
Record Network : Type := mkNetwork {
  (** [s.head(url)]: the final status code. *)
  http_head : History -> string -> option Z;
  (** [s.get(url)]: the final status code and [r.text]. *)
  http_get : History -> string -> option (Z * string);
  (** [s.get("https://duckduckgo.com/html/", params={"q": query})] *)
  ddg_get : History -> string -> option (Z * string);
  (** [client.chat.completions.create(...)] followed by
      [resp.choices[0].message.content], which may be [None]. *)
  chat_create : History -> string -> string -> bool -> option (option string);
  (** [client.responses.create(...)] *)
  responses_create : History -> string -> string -> option ResponsesReply
}.

(** ** The monad of requests and exceptions *)

Inductive outcome (A : Type) : Type :=
| Ok (a : A)
| Raised.
Arguments Ok {A} a.
Arguments Raised {A}.

Definition M (A : Type) : Type := History -> outcome A * History.

Definition ret {A} (a : A) : M A := fun h => (Ok a, h).

Definition raise {A} : M A := fun h => (Raised, h).

Definition bind {A B} (m : M A) (k : A -> M B) : M B :=
  fun h =>
    match m h with
    | (Ok a, h') => k a h'
    | (Raised, h') => (Raised, h')
    end.

(** [try: m  except Exception: handler] *)
Definition catch {A} (m handler : M A) : M A :=
  fun h =>
    match m h with
    | (Ok a, h') => (Ok a, h')
    | (Raised, h') => handler h'
    end.

(** The value of a library call, or its exception. *)
Definition lift {A} (o : option A) : M A :=
  match o with
  | Some a => ret a
  | None => raise
  end.

(** Issue request [r], answered by [answer] on the history so far. *)
Definition call {A} (r : Request) (answer : History -> option A) : M A :=
  fun h =>
    match answer h with
    | Some a => (Ok a, (h ++ [r])%list)
    | None => (Raised, (h ++ [r])%list)
    end.

Declare Scope py_scope.
Delimit Scope py_scope with py.
Notation "x <- m ;; k" := (bind m (fun x => k))
  (at level 61, m at next level, right associativity) : py_scope.
Notation "' pat <- m ;; k" := (bind m (fun x => match x with pat => k end))
  (at level 61, pat pattern, m at next level, right associativity) : py_scope.

Definition value {A} (r : outcome A * History) : outcome A := fst r.
Definition trace {A} (r : outcome A * History) : History := snd r.

(** ** The functions of [app.py] *)

Section Program.

Variable lib : Library.
Variable net : Network.
Variable cfg : Config.

Local Open Scope py_scope.

(** [is_valid_url]: the [try] around [urlparse] turns its exception into
    [False]. *)
Definition is_valid_url (url : string) : bool :=
  match urlparse lib url with
  | Some parsed =>
      (String.eqb (scheme parsed) "http" || String.eqb (scheme parsed) "https")
      && negb (PyStr.is_empty (netloc parsed))
  | None => false
  end.

Definition head_request (url : string) : M Z :=
  call (ReqHead url) (fun h => http_head net h url).

Definition get_request (url : string) : M (Z * string) :=
  call (ReqGet url) (fun h => http_get net h url).

Definition is_error_status (code : Z) : bool :=
  (400 <=? code)%Z || (code =? 405)%Z.

Definition is_success_status (code : Z) : bool :=
  (200 <=? code)%Z && (code <? 400)%Z.

Definition safe_head (url : string) : M bool :=
  catch
    (code <- head_request url ;;
     code <- (if is_error_status code
              then '(code', _) <- get_request url ;; ret code'
              else ret code) ;;
     ret (is_success_status code))
    (ret false).

(** The loop over [COMMON_CAREER_PATHS] (lines 107-110); its call of
    [urljoin] is outside any [try]. *)
Fixpoint try_paths (domain_url : string) (paths : list string)
  : M (option string) :=
  match paths with
  | [] => ret None
  | p :: rest =>
      candidate <- lift (urljoin lib domain_url p) ;;
      ok <- safe_head candidate ;;
      if ok then ret (Some candidate) else try_paths domain_url rest
  end.

Definition careers_text (text : string) : bool :=
  PyStr.contains text "career" || PyStr.contains text "job"
  || PyStr.contains text "join".

(** The loop over the anchors of the homepage (lines 117-123). *)
Fixpoint scan_anchors (domain_url : string) (anchors : list Anchor)
  : M (option string) :=
  match anchors with
  | [] => ret None
  | a :: rest =>
      if careers_text (PyStr.lower (anchor_text a))
      then
        candidate <- lift (urljoin lib domain_url (href a)) ;;
        ok <- safe_head candidate ;;
        if ok then ret (Some candidate) else scan_anchors domain_url rest
      else scan_anchors domain_url rest
  end.

Definition slash_normalize (domain_url : string) : string :=
  if PyStr.endswith_slash domain_url then domain_url else domain_url ++ "/".

(** The last resort of the discoverer (lines 112-125). *)
Definition scan_homepage (domain_url : string) : M (option string) :=
  catch
    ('(code, text) <- get_request domain_url ;;
     if is_success_status code
     then anchors <- lift (soup_anchors lib text) ;;
          scan_anchors domain_url anchors
     else ret None)
    (ret None).

Definition discover_careers_from_domain (domain_url : string)
  : M (option string) :=
  let domain_url := slash_normalize domain_url in
  found <- try_paths domain_url COMMON_CAREER_PATHS ;;
  match found with
  | Some candidate => ret (Some candidate)
  | None => scan_homepage domain_url
  end.

(** The first [href] that is present, non-empty and holds ["http://"] or
    ["https://"]. *)
Fixpoint first_absolute (links : list (option string)) : option string :=
  match links with
  | [] => None
  | Some h :: rest =>
      if negb (PyStr.is_empty h)
         && (PyStr.contains h "http://" || PyStr.contains h "https://")
      then Some h
      else first_absolute rest
  | None :: rest => first_absolute rest
  end.

Definition ddg_first_result (query : string) : M (option string) :=
  catch
    ('(code, text) <- call (ReqSearch query) (fun h => ddg_get net h query) ;;
     if negb (code =? 200)%Z
     then ret None
     else links <- lift (soup_result_links lib text) ;;
          ret (first_absolute links))
    (ret None).

Definition newline : string := String (ascii_of_nat 10) EmptyString.

Definition user_msg (user_text : string) : string :=
  "Company input: " ++ user_text ++ newline ++ "Return ONLY JSON as specified.".

(** The dict every successful attempt returns. *)
Definition triple (data : pydict) : pydict :=
  [ ("company", dict_get data "company");
    ("official_website", dict_get data "official_website");
    ("careers_url", dict_get data "careers_url") ].

(** Attempt 1, Chat Completions with JSON mode.  Every path that does not
    return raises: the call, [json.loads] (also on a [None] content), and
    [data.get] on a value that is not a dict. *)
Definition attempt_chat_json (user_text : string) : M (option pydict) :=
  content <- call (ReqChat (model cfg) (user_msg user_text) true)
               (fun h => chat_create net h (model cfg) (user_msg user_text) true) ;;
  content <- lift content ;;
  data <- lift (json_loads lib content) ;;
  match data with
  | PDict d => ret (Some (triple d))
  | _ => raise
  end.

(** [json.loads(text)], and on its failure the salvage by [re.search]:
    [json.loads(m.group(0)) if m else {}]. *)
Definition parse_or_salvage (text : option string) : M pyval :=
  catch
    (text <- lift text ;; lift (json_loads lib text))
    (text <- lift text ;;
     match re_search_triple lib text with
     | Some group0 => lift (json_loads lib group0)
     | None => ret (PDict [])
     end).

(** [if isinstance(data, dict): return {...}]; otherwise control leaves the
    [try] without returning. *)
Definition return_if_dict (data : pyval) : M (option pydict) :=
  match data with
  | PDict d => ret (Some (triple d))
  | _ => ret None
  end.

(** Attempt 2, Chat Completions without JSON mode. *)
Definition attempt_chat_plain (user_text : string) : M (option pydict) :=
  content <- call (ReqChat (model cfg) (user_msg user_text) false)
               (fun h => chat_create net h (model cfg) (user_msg user_text) false) ;;
  data <- parse_or_salvage content ;;
  return_if_dict data.

(** [next((t for t in text_candidates if t), "")] *)
Definition first_text (resp : ResponsesReply) : string :=
  let candidates :=
    (match output_text resp with
     | Some t => if PyStr.is_empty t then [] else [t]
     | None => []
     end ++ filter (fun t => negb (PyStr.is_empty t)) (block_texts resp))%list in
  match candidates with
  | t :: _ => t
  | [] => ""
  end.

(** Attempt 3, the Responses API. *)
Definition attempt_responses (user_text : string) : M (option pydict) :=
  resp <- call (ReqResponses (model cfg) (user_msg user_text))
            (fun h => responses_create net h (model cfg) (user_msg user_text)) ;;
  let text := first_text resp in
  if PyStr.is_empty text
  then ret None
  else data <- parse_or_salvage (Some text) ;;
       return_if_dict data.

(** [try: attempt  except Exception: pass], then the code after it. *)
Definition or_next {A} (attempt : M (option A)) (next : M A) : M A :=
  r <- catch attempt (ret None) ;;
  match r with
  | Some a => ret a
  | None => next
  end.

Definition openai_guess_company_and_urls (user_text : string) : M pydict :=
  if negb (client cfg)
  then ret []
  else
    or_next (attempt_chat_json user_text)
      (or_next (attempt_chat_plain user_text)
         (or_next (attempt_responses user_text)
            (ret []))).

(** [safe_head] on a value of any type: [httpx] rejects a URL that is not a
    [str] inside the [try], before any request. *)
Definition safe_head_value (v : pyval) : M bool :=
  match v with
  | PStr url => safe_head url
  | _ => ret false
  end.

(** [discover_careers_from_domain] on a value of any type: [endswith]
    exists on [str] only. *)
Definition discover_value (v : pyval) : M (option string) :=
  match v with
  | PStr url => discover_careers_from_domain url
  | _ => raise
  end.

(** A search result accepted when present, non-empty and reachable. *)
Definition accept_if_reachable (found : option string) (current : pyval)
  : M pyval :=
  match found with
  | Some url =>
      if PyStr.is_empty url
      then ret current
      else ok <- safe_head url ;; ret (if ok then PStr url else current)
  | None => ret current
  end.

(** The branch of [best_urls_from_all_signals] for an input that is a
    valid URL (lines 273-279). *)
Definition direct_url (user_text : string) : M (pyval * pyval * pydict) :=
  parsed <- lift (urlparse lib user_text) ;;
  let official := scheme parsed ++ "://" ++ netloc parsed in
  let lowered := PyStr.lower (path parsed) in
  let careers :=
    if PyStr.contains lowered "career" || PyStr.contains lowered "job"
    then PStr user_text else PNone in
  careers <- (if negb (truthy careers)
              then maybe <- discover_careers_from_domain official ;;
                   ret (py_or (py_of_opt maybe) (PStr user_text))
              else ret careers) ;;
  ret (PStr official, careers, [("mode", PStr "direct_url")]).

(** The body of the loop over [POPULAR_DOMAINS] for the entry whose key
    is found in the hint (lines 287-289). *)
Definition popular_map (key dom : string) : M (pyval * pyval * pydict) :=
  found <- discover_careers_from_domain dom ;;
  careers <- (if truthy (py_of_opt found)
              then ret (py_of_opt found)
              else r <- ddg_first_result (key ++ " careers site") ;;
                   ret (py_of_opt r)) ;;
  ret (PStr dom, careers, [("mode", PStr "popular_map")]).

(** One field of the search fallback (lines 306-309 for the official
    site, 310-313 for the careers URL): when [current] is falsy, search for
    [query] and take the result if it is reachable. *)
Definition search_field (query : string) (current : pyval) : M pyval :=
  if negb (truthy current)
  then found <- ddg_first_result query ;;
       accept_if_reachable found current
  else ret current.

(** The search fallback (lines 305-313) on the values the steps before it
    left. *)
Definition search_fallback (hint : string) (official careers : pyval)
  : M (pyval * pyval) :=
  official <- search_field (hint ++ " official site") official ;;
  careers <- search_field (hint ++ " careers site") careers ;;
  ret (official, careers).

(** The rest of [best_urls_from_all_signals] once no popular key is found
    (lines 291-315): the resolver, the probes of what it proposes, the
    search fallback. *)
Definition ask_openai (user_text hint : string) : M (pyval * pyval * pydict) :=
  ai <- openai_guess_company_and_urls user_text ;;
  let debug := [("hint", PStr hint); ("openai_raw", PDict ai)] in
  let official := dict_get ai "official_website" in
  let careers := dict_get ai "careers_url" in
  official <- (if truthy official
               then ok <- safe_head_value official ;;
                    ret (if ok then official else PNone)
               else ret official) ;;
  careers <- (if truthy official
              then unusable <- (if negb (truthy careers)
                                then ret true
                                else ok <- safe_head_value careers ;;
                                     ret (negb ok)) ;;
                   if unusable
                   then discovered <- discover_value official ;;
                        ret (py_or (py_of_opt discovered) careers)
                   else ret careers
              else ret careers) ;;
  '(official, careers) <- search_fallback hint official careers ;;
  ret (official, careers, debug).

(** The first entry of [POPULAR_DOMAINS] whose key occurs in [hint]. *)
Definition popular_lookup (hint : string) : option (string * string) :=
  find (fun entry => PyStr.contains hint (fst entry)) POPULAR_DOMAINS.

Definition best_urls_from_all_signals (user_text : string)
  : M (pyval * pyval * pydict) :=
  if is_valid_url user_text
  then direct_url user_text
  else
    let hint := normalize_company user_text in
    match popular_lookup hint with
    | Some (key, dom) => popular_map key dom
    | None => ask_openai user_text hint
    end.

End Program.

(** ** Vocabulary of the statements *)

(** The URLs of the HEAD requests of a list of requests, in order. *)
Fixpoint head_urls (requests : list Request) : list string :=
  match requests with
  | [] => []
  | ReqHead url :: rest => url :: head_urls rest
  | _ :: rest => head_urls rest
  end.

(** [url] is reachable ([b = true]) or unreachable ([b = false]) whenever it
    is probed. *)
Definition probes_as (net : Network) (url : string) (b : bool) : Prop :=
  forall h, fst (safe_head net url h) = Ok b.


Section Vocabulary.

Variable lib : Library.
Variable net : Network.
Variable cfg : Config.

(** The JSON object a text parses to, if it does. *)
Definition object_of_text (text : string) : option pydict :=
  match json_loads lib text with
  | Some (PDict d) => Some d
  | _ => None
  end.

(** The object the second and third request shapes read out of a text: the
    text parsed as JSON; when it is not JSON, the part the salvage pattern
    matches, parsed as JSON; when nothing matches, the empty object. *)
Definition object_or_salvage (text : string) : option pydict :=
  match json_loads lib text with
  | Some (PDict d) => Some d
  | Some _ => None
  | None =>
      match re_search_triple lib text with
      | Some group0 => object_of_text group0
      | None => Some []
      end
  end.

(** The object each request shape yields, by the reply it gets. *)
Definition chat_json_object (reply : option (option string)) : option pydict :=
  match reply with
  | Some (Some content) => object_of_text content
  | _ => None
  end.

Definition chat_plain_object (reply : option (option string)) : option pydict :=
  match reply with
  | Some (Some content) => object_or_salvage content
  | _ => None
  end.

Definition responses_object (reply : option ResponsesReply) : option pydict :=
  match reply with
  | Some resp =>
      if PyStr.is_empty (first_text resp) then None
      else object_or_salvage (first_text resp)
  | None => None
  end.

(** The three request shapes for [user_text] from history [h], each with
    the object it yields when it is issued right after the ones before. *)
Definition request_shapes (user_text : string) (h : History)
  : list (Request * option pydict) :=
  let m := model cfg in
  let u := user_msg user_text in
  let q1 := ReqChat m u true in
  let q2 := ReqChat m u false in
  let q3 := ReqResponses m u in
  [ (q1, chat_json_object (chat_create net h m u true));
    (q2, chat_plain_object (chat_create net (h ++ [q1]) m u false));
    (q3, responses_object (responses_create net (h ++ [q1; q2]) m u)) ]%list.

(** Try the shapes in order: the first object wins, and the requests up to
    it are the ones issued. *)
Fixpoint first_object (shapes : list (Request * option pydict))
  : pydict * list Request :=
  match shapes with
  | [] => ([], [])
  | (q, Some d) :: _ => (triple d, [q])
  | (q, None) :: rest =>
      let (result, issued) := first_object rest in (result, q :: issued)
  end.


(** The first result link the search engine gives for [query] at history
    [h]. *)
Definition first_result (query : string) (h : History) : option string :=
  match ddg_get net h query with
  | Some (code, text) =>
      if (code =? 200)%Z
      then match soup_result_links lib text with
           | Some links => first_absolute links
           | None => None
           end
      else None
  | None => None
  end.

(** One field of the search fallback: from value [current] at history [h]
    to value [result] at history [h']. *)
Inductive search_step (query : string) (current : pyval) (h : History)
  : pyval -> History -> Prop :=
| step_kept :
    truthy current = true ->
    search_step query current h current h
| step_no_result :
    truthy current = false ->
    first_result query h = None ->
    search_step query current h current (h ++ [ReqSearch query])%list
| step_accepted url h' :
    truthy current = false ->
    first_result query h = Some url ->
    safe_head net url (h ++ [ReqSearch query])%list = (Ok true, h') ->
    search_step query current h (PStr url) h'
| step_rejected url h' :
    truthy current = false ->
    first_result query h = Some url ->
    safe_head net url (h ++ [ReqSearch query])%list = (Ok false, h') ->
    search_step query current h current h'.

End Vocabulary.

(** ** A reference instance of the libraries

    Executable instances used to run the program on concrete inputs.  The
    URL functions follow CPython's [urllib.parse] on ASCII input: scheme
    detection, the split of the network location, the bracket check that
    raises [ValueError], and the removal of query, fragment and parameters
    from the path.  The check of a bracketed host and the join of
    references with dot segments, a query or a fragment are not part of the
    instance. *)

Module Demo.

Fixpoint break (p : ascii -> bool) (s : string) : string * string :=
  match s with
  | EmptyString => (EmptyString, EmptyString)
  | String c r =>
      if p c then (EmptyString, s)
      else let (a, b) := break p r in (String c a, b)
  end.

Fixpoint all_chars (p : ascii -> bool) (s : string) : bool :=
  match s with
  | EmptyString => true
  | String c r => p c && all_chars p r
  end.

Fixpoint remove_chars (p : ascii -> bool) (s : string) : string :=
  match s with
  | EmptyString => EmptyString
  | String c r => if p c then remove_chars p r else String c (remove_chars p r)
  end.

Fixpoint lstrip_chars (p : ascii -> bool) (s : string) : string :=
  match s with
  | EmptyString => EmptyString
  | String c r => if p c then lstrip_chars p r else s
  end.

Definition is_char (a c : ascii) : bool := Ascii.eqb a c.

Definition has_char (a : ascii) (s : string) : bool :=
  negb (all_chars (fun c => negb (is_char a c)) s).

Definition is_alpha (c : ascii) : bool :=
  PyStr.between 65 90 c || PyStr.between 97 122 c.

Definition is_scheme_char (c : ascii) : bool :=
  is_alpha c || PyStr.between 48 57 c
  || is_char "+" c || is_char "-" c || is_char "." c.

Definition uses_params : list string :=
  [ ""; "ftp"; "hdl"; "prospero"; "http"; "imap"; "https"; "shttp"; "rtsp";
    "rtspu"; "sip"; "sips"; "mms"; "sftp"; "tel" ].

(** The part of [s] up to and including its last ["/"], and the rest. *)
Fixpoint split_last_segment (s : string) : string * string :=
  match s with
  | EmptyString => (EmptyString, EmptyString)
  | String c r =>
      let (dir, seg) := split_last_segment r in
      if PyStr.is_empty dir
      then if is_char "/" c
           then (String c EmptyString, seg)
           else (EmptyString, String c seg)
      else (String c dir, seg)
  end.

Definition strip_params (url : string) : string :=
  let (dir, seg) := split_last_segment url in
  dir ++ fst (break (is_char ";") seg).

Definition parse_url (url : string) : option ParseResult :=
  let url := lstrip_chars (fun c => Nat.leb (PyStr.code c) 32) url in
  let url :=
    remove_chars (fun c => Nat.eqb (PyStr.code c) 9 || Nat.eqb (PyStr.code c) 10
                           || Nat.eqb (PyStr.code c) 13) url in
  let (before, after) := break (is_char ":") url in
  let '(sch, url) :=
    match after, before with
    | String _ rest, String c0 _ =>
        if is_alpha c0 && all_chars is_scheme_char before
        then (PyStr.lower before, rest)
        else (EmptyString, url)
    | _, _ => (EmptyString, url)
    end in
  let '(loc, url) :=
    if prefix "//" url
    then break (fun c => is_char "/" c || is_char "?" c || is_char "#" c)
           (PyStr.drop 2 url)
    else (EmptyString, url) in
  if xorb (has_char "[" loc) (has_char "]" loc)
  then None
  else
    let url := fst (break (is_char "#") url) in
    let url := fst (break (is_char "?") url) in
    let url :=
      if existsb (String.eqb sch) uses_params then strip_params url else url in
    Some (mkParse sch loc url).

(** [urljoin] for a reference that is an absolute URL, an absolute path or
    a plain relative path. *)
Definition join_url (base url : string) : option string :=
  if PyStr.is_empty base then Some url
  else if PyStr.is_empty url then Some base
  else
    match parse_url base, parse_url url with
    | Some b, Some u =>
        if negb (PyStr.is_empty (scheme u)) then Some url
        else
          let root := scheme b ++ "://" ++ netloc b in
          if prefix "/" url then Some (root ++ url)
          else Some (root ++ fst (split_last_segment (path b)) ++ url)
    | _, _ => None
    end.

Fixpoint lookup {A} (k : string) (table : list (string * A)) : option A :=
  match table with
  | [] => None
  | (k', a) :: rest => if String.eqb k' k then Some a else lookup k rest
  end.

Definition dq : string := String (ascii_of_nat 34) EmptyString.

Definition json_field (kv : string * string) : string :=
  dq ++ fst kv ++ dq ++ ": " ++ dq ++ snd kv ++ dq.

(** The JSON text of an object whose values are strings. *)
Definition json_object (fields : list (string * string)) : string :=
  "{" ++ String.concat ", " (map json_field fields) ++ "}".

Definition object_value (fields : list (string * string)) : pyval :=
  PDict (map (fun kv => (fst kv, PStr (snd kv))) fields).

(** The libraries over given tables.  [json.loads] accepts the texts of the
    listed [objects] and rejects every other text; the salvage pattern
    matches nothing; an HTML text that is not listed has no anchors and no
    result links. *)
Definition library (objects : list (list (string * string)))
    (anchors : list (string * list Anchor))
    (results : list (string * list (option string))) : Library :=
  {| urlparse := parse_url;
     urljoin := join_url;
     json_loads := fun text =>
       option_map object_value
         (find (fun o => String.eqb (json_object o) text) objects);
     re_search_triple := fun _ => None;
     soup_anchors := fun text =>
       Some match lookup text anchors with Some l => l | None => [] end;
     soup_result_links := fun text =>
       Some match lookup text results with Some l => l | None => [] end |}.

(** A network that answers the same way at every time: HEAD gives 200 on
    the [reachable] URLs and 404 elsewhere, GET gives 200 with the listed
    page or 404, the search engine gives the listed page or fails, and the
    language-model calls give the fixed replies. *)
Definition network (reachable : list string) (pages : list (string * string))
    (searches : list (string * string))
    (chat_json chat_plain : option (option string))
    (responses : option ResponsesReply) : Network :=
  {| http_head := fun _ url =>
       Some (if existsb (String.eqb url) reachable then 200 else 404)%Z;
     http_get := fun _ url =>
       match lookup url pages with
       | Some text => Some (200%Z, text)
       | None => Some (404%Z, EmptyString)
       end;
     ddg_get := fun _ query =>
       option_map (fun text => (200%Z, text)) (lookup query searches);
     chat_create := fun _ _ _ json_mode =>
       if json_mode then chat_json else chat_plain;
     responses_create := fun _ _ _ => responses |}.

Definition with_key : Config := mkConfig "sk-test" "gpt-4.1-mini".
Definition without_key : Config := mkConfig "" "gpt-4.1-mini".

End Demo.

(** ** Concrete worlds *)

Module Worlds.

Definition acme : list (string * string) :=
  [ ("company", "Acme");
    ("official_website", "https://acme.example");
    ("careers_url", "https://acme.example/careers") ].

(** The first request shape is answered by the empty object, the second by
    the object [acme]. *)
Definition lib_objects : Library := Demo.library [[]; acme] [] [].

(** The language model proposes an official site whose user information
    holds a bracket; the site answers the probe. *)
Definition bracket : list (string * string) :=
  [ ("company", "Acme");
    ("official_website", "http://user[@example.com");
    ("careers_url", "") ].
Definition lib_bracket : Library := Demo.library [bracket] [] [].
Definition net_bracket : Network :=
  Demo.network ["http://user[@example.com"] [] []
    (Some (Some (Demo.json_object bracket))) None None.

(** Nothing is reachable, the search engine and the language model fail. *)
Definition lib_plain : Library := Demo.library [] [] [].
Definition net_offline : Network := Demo.network [] [] [] None None None.

(** The search for the official site of "acme robotics" gives two result
    links, of which only the second is reachable. *)
Definition results_page : string :=
  "<a class=result__a href=https://a.example>A</a>" ++
  "<a class=result__a href=https://b.example>B</a>".
Definition lib_results : Library :=
  Demo.library [] []
    [(results_page, [Some "https://a.example"; Some "https://b.example"])].
Definition net_second_reachable : Network :=
  Demo.network ["https://b.example"] []
    [("acme robotics official site", results_page)] None None None.

(** Of the candidates under "https://example.com" only "jobs" is
    reachable. *)
Definition net_jobs : Network :=
  Demo.network ["https://example.com/jobs"] [] [] None None None.

(** The language model proposes a reachable official site and a careers
    URL that is not reachable; no career path exists on the site. *)
Definition stale : list (string * string) :=
  [ ("company", "Acme");
    ("official_website", "https://acme.example");
    ("careers_url", "https://acme.example/old-jobs") ].
Definition lib_stale : Library := Demo.library [stale] [] [].
Definition net_stale : Network :=
  Demo.network ["https://acme.example"] [] []
    (Some (Some (Demo.json_object stale))) None None.

End Worlds.

(** ** Vocabulary of the further properties *)

(** Every character of [s] satisfies [p]. *)
Fixpoint all_of (p : ascii -> bool) (s : string) : bool :=
  match s with
  | EmptyString => true
  | String c r => p c && all_of p r
  end.

(** [s] starts with a whitespace character. *)
Definition space_head (s : string) : bool :=
  match s with
  | EmptyString => false
  | String c _ => PyStr.is_space c
  end.

(** Every whitespace character of [s] is a space that is followed by a
    character that is not whitespace. *)
Fixpoint single_spaced (s : string) : bool :=
  match s with
  | EmptyString => true
  | String c r =>
      (if PyStr.is_space c
       then Ascii.eqb c " " && negb (PyStr.is_empty r) && negb (space_head r)
       else true)
      && single_spaced r
  end.

(** Every whitespace character of [s] is a space that is not followed by
    whitespace (the end of [s] may follow it). *)
Fixpoint loosely_spaced (s : string) : bool :=
  match s with
  | EmptyString => true
  | String c r =>
      (if PyStr.is_space c
       then Ascii.eqb c " " && negb (space_head r)
       else true)
      && loosely_spaced r
  end.

Definition not_upper (c : ascii) : bool := negb (PyStr.between 65 90 c).

(** Words separated by single spaces, with no blank at either end. *)
Definition tidy_hint (s : string) : bool :=
  negb (space_head s) && single_spaced s.

(** The alternatives of the legal-token pattern without a dot. *)
Definition PLAIN_TOKENS : list string :=
  ["inc"; "llc"; "corp"; "company"; "ltd"].

Definition is_llm_request (q : Request) : bool :=
  match q with
  | ReqChat _ _ _ | ReqResponses _ _ => true
  | _ => false
  end.

Definition is_probe_request (q : Request) : bool :=
  match q with
  | ReqHead _ | ReqGet _ => true
  | _ => false
  end.

(** The test [ddg_first_result] makes on the [href] of a result. *)
Definition looks_absolute (link : option string) : bool :=
  match link with
  | Some h =>
      negb (PyStr.is_empty h)
      && (PyStr.contains h "http://" || PyStr.contains h "https://")
  | None => false
  end.

(** The test the homepage scan makes on an anchor. *)
Definition mentions_careers (a : Anchor) : bool :=
  careers_text (PyStr.lower (anchor_text a)).

(** ** More concrete worlds *)

Module Scenes.

(** The homepage of "https://example.com" holds two anchors that mention
    careers: the first has an [href] that [urljoin] rejects, the second is
    reachable.  No career path is reachable. *)
Definition homepage : string :=
  "<a href=http://[bad>Careers</a><a href=/work>Jobs</a>".
Definition lib_homepage : Library :=
  Demo.library []
    [(homepage, [mkAnchor "http://[bad" "Careers"; mkAnchor "/work" "Jobs"])]
    [].
Definition net_homepage : Network :=
  Demo.network ["https://example.com/work"]
    [("https://example.com/", homepage)] [] None None None.

(** Nothing is reachable; the search for "nvidia careers site" gives one
    result link. *)
Definition nvidia_results : string :=
  "<a class=result__a href=https://nvidia.example/jobs>Jobs</a>".
Definition lib_nvidia : Library :=
  Demo.library [] [] [(nvidia_results, [Some "https://nvidia.example/jobs"])].
Definition net_nvidia : Network :=
  Demo.network [] [] [("nvidia careers site", nvidia_results)] None None None.

(** The language model proposes a careers URL and no official site; the
    search engine fails. *)
Definition careers_only : list (string * string) :=
  [ ("company", "Acme");
    ("official_website", "");
    ("careers_url", "https://acme.example/jobs") ].
Definition lib_careers_only : Library := Demo.library [careers_only] [] [].
Definition net_careers_only : Network :=
  Demo.network [] [] [] (Some (Some (Demo.json_object careers_only))) None None.

(** The language model proposes an official site and a careers URL that
    are both reachable. *)
Definition net_both_reachable : Network :=
  Demo.network ["https://acme.example"; "https://acme.example/careers"] [] []
    (Some (Some (Demo.json_object Worlds.acme))) None None.

(** The language model proposes a reachable official site and a careers
    URL that is not reachable; the path "careers" exists on the site. *)
Definition net_stale_with_path : Network :=
  Demo.network ["https://acme.example"; "https://acme.example/careers"] [] []
    (Some (Some (Demo.json_object Worlds.stale))) None None.

End Scenes.

(** ** The host of a network location *)

(** The [hostname] attribute of a parse result, after CPython's
    [urllib.parse] ([_hostinfo] and [hostname]): the part of the network
    location after the last ["@"], up to the first [":"] (for a bracketed
    host, the text between the brackets), lower-cased before a ["%"];
    [None] when that part is empty. *)
Module Netloc.

(** [s.rpartition(a)[2]]: what follows the last [a], or [s] without one. *)
Fixpoint after_last (a : ascii) (s : string) : string :=
  match s with
  | EmptyString => EmptyString
  | String c r =>
      if Demo.has_char a r then after_last a r
      else if Demo.is_char a c then r else s
  end.

(** [s.partition(a)]: what precedes the first [a], and what follows it
    when there is one. *)
Definition partition (a : ascii) (s : string) : string * option string :=
  let (before, rest) := Demo.break (Demo.is_char a) s in
  match rest with
  | EmptyString => (before, None)
  | String _ after => (before, Some after)
  end.

Definition hostname (netloc : string) : option string :=
  let hostinfo := after_last "@" netloc in
  let raw :=
    match partition "[" hostinfo with
    | (_, Some bracketed) => fst (partition "]" bracketed)
    | (_, None) => fst (partition ":" hostinfo)
    end in
  if PyStr.is_empty raw then None
  else
    let (name, zone) := Demo.break (Demo.is_char "%") raw in
    Some (PyStr.lower name ++ zone).

(** The port as written in the network location, with its colon; empty
    when there is none. *)
Definition port_suffix (netloc : string) : string :=
  let hostinfo := after_last "@" netloc in
  let after_host :=
    match partition "[" hostinfo with
    | (_, Some bracketed) =>
        match partition "]" bracketed with
        | (_, Some rest) => rest
        | (_, None) => EmptyString
        end
    | (_, None) => hostinfo
    end in
  match partition ":" after_host with
  | (_, Some digits) => if PyStr.is_empty digits then EmptyString
                        else String ":" digits
  | (_, None) => EmptyString
  end.

End Netloc.

(** A character of the ASCII range. *)
Definition is_ascii (c : ascii) : bool := Nat.ltb (PyStr.code c) 128.

(** * Properties *)

Local Open Scope list_scope.

Arguments value {A} r /.
Arguments trace {A} r /.

(** ** The monad *)

Lemma bind_ret {A B} (a : A) (k : A -> M B) (h : History) :
  bind (ret a) k h = k a h.
Proof. reflexivity. Qed.

Lemma bind_ok {A B} (m : M A) (k : A -> M B) (h h' : History) (a : A) :
  m h = (Ok a, h') -> bind m k h = k a h'.
Proof. intros E. unfold bind. rewrite E. reflexivity. Qed.

Lemma bind_raised {A B} (m : M A) (k : A -> M B) (h h' : History) :
  m h = (Raised, h') -> bind m k h = (Raised, h').
Proof. intros E. unfold bind. rewrite E. reflexivity. Qed.

Lemma bind_assoc {A B C} (m : M A) (f : A -> M B) (g : B -> M C)
    (h : History) :
  bind (bind m f) g h = bind m (fun a => bind (f a) g) h.
Proof. unfold bind. destruct (m h) as [[a|] h']; reflexivity. Qed.

(** Bring the sequence of binds in the goal to its right-nested form,
    reducing returns and the tests on computed values. *)
Ltac tidy :=
  repeat first
    [ rewrite bind_ret
    | rewrite bind_assoc
    | progress cbn [negb py_or py_of_opt safe_head_value discover_value] ].

(** Run the computation at the head of the sequence by equation [H]. *)
Ltac run_with H := tidy; rewrite (bind_ok _ _ _ _ _ H); tidy.

(** ** The prober *)

Section ProberFacts.

Variable net : Network.

(** [safe_head] unfolded: the requests it issues and the value it returns,
    by the answers of the network. *)
Lemma safe_head_run (url : string) (h : History) :
  safe_head net url h =
  match http_head net h url with
  | None => (Ok false, (h ++ [ReqHead url])%list)
  | Some code =>
      if is_error_status code
      then match http_get net (h ++ [ReqHead url]) url with
           | None => (Ok false, (h ++ [ReqHead url; ReqGet url])%list)
           | Some (code', _) =>
               (Ok (is_success_status code'),
                (h ++ [ReqHead url; ReqGet url])%list)
           end
      else (Ok (is_success_status code), (h ++ [ReqHead url])%list)
  end.
Proof.
  unfold safe_head, catch, bind, head_request, get_request, call, ret.
  destruct (http_head net h url) as [code|]; [|reflexivity].
  destruct (is_error_status code); [|reflexivity].
  destruct (http_get net (h ++ [ReqHead url]) url) as [[code' text]|];
    rewrite <- app_assoc; reflexivity.
Qed.

Lemma safe_head_returns (url : string) (h : History) :
  exists b, value (safe_head net url h) = Ok b.
Proof.
  rewrite safe_head_run.
  destruct (http_head net h url) as [code|]; [|eexists; reflexivity].
  destruct (is_error_status code); [|eexists; reflexivity].
  destruct (http_get net (h ++ [ReqHead url]) url) as [[code' text]|];
    eexists; reflexivity.
Qed.

Lemma is_error_status_iff (code : Z) :
  is_error_status code = true <-> (400 <= code \/ code = 405)%Z.
Proof. unfold is_error_status. rewrite orb_true_iff. lia. Qed.

Lemma is_success_status_iff (code : Z) :
  is_success_status code = true <-> (200 <= code < 400)%Z.
Proof. unfold is_success_status. rewrite andb_true_iff. lia. Qed.

(** C5: [safe_head] issues HEAD first and retries with GET exactly when the
    HEAD status is at least 400 or is 405; it returns [True] exactly when
    the final status lies in [200, 400); a transport failure of either
    request gives [False], never an exception; in particular an
    unresolvable host gives [False], and HEAD 405 followed by GET 200 gives
    [True]. *)
Theorem safe_head_spec (url : string) (h : History) :
  let r := safe_head net url h in
  let h1 := (h ++ [ReqHead url])%list in
  let retried :=
    exists code, http_head net h url = Some code
                 /\ (400 <= code \/ code = 405)%Z in
  (* HEAD first, then at most a GET *)
  (trace r = h1 \/ trace r = (h1 ++ [ReqGet url])%list)
  (* the GET retry happens exactly on an error status or 405 *)
  /\ (trace r = (h1 ++ [ReqGet url])%list <-> retried)
  (* never an exception *)
  /\ (exists b, value r = Ok b)
  (* true iff the final status is in [200, 400) *)
  /\ (value r = Ok true <->
      (exists code, http_head net h url = Some code
                    /\ ~ (400 <= code \/ code = 405)%Z
                    /\ (200 <= code < 400)%Z)
      \/ (retried /\ exists code' text,
             http_get net h1 url = Some (code', text)
             /\ (200 <= code' < 400)%Z))
  (* transport failures *)
  /\ (http_head net h url = None -> value r = Ok false)
  /\ (retried -> http_get net h1 url = None -> value r = Ok false)
  (* HEAD 405, GET 200 *)
  /\ (forall text, http_head net h url = Some 405%Z ->
                   http_get net h1 url = Some (200%Z, text) ->
                   value r = Ok true).
Proof.
  cbv zeta. rewrite safe_head_run.
  assert (Hne : forall l (x : Request), l <> (l ++ [x])%list).
  { intros l x E. apply (f_equal (@List.length _)) in E.
    rewrite length_app in E. simpl in E. lia. }
  destruct (http_head net h url) as [code|] eqn:Hhead.
  - destruct (is_error_status code) eqn:Herr.
    + pose proof (proj1 (is_error_status_iff code) Herr) as Hc.
      destruct (http_get net (h ++ [ReqHead url]) url) as [[code' text]|] eqn:Hget;
        cbn [value trace fst snd]; rewrite <- app_assoc; cbn [app].
      * repeat split; eauto.
        -- intros Hs. injection Hs as Hs. apply is_success_status_iff in Hs.
           right. split; eauto.
        -- intros [(c & E & Hn & _) | (_ & c' & t & E & Hr)].
           ++ injection E as <-. contradiction.
           ++ injection E as <- <-.
              f_equal. apply is_success_status_iff. exact Hr.
        -- discriminate.
        -- intros _ E. discriminate.
        -- intros t E1 E2. injection E1 as ->. injection E2 as -> ->.
           reflexivity.
      * repeat split; eauto; try discriminate.
        intros [(c & E & Hn & _) | (_ & c' & t & E & Hr)]; [|discriminate].
        injection E as <-. contradiction.
    + assert (Hc : ~ (400 <= code \/ code = 405)%Z).
      { intros Hc. apply is_error_status_iff in Hc. congruence. }
      cbn [value trace fst snd].
      repeat split; eauto; try discriminate.
      * intros E. exfalso. exact (Hne _ _ E).
      * intros (c & E & Hc'). injection E as <-. contradiction.
      * intros Hs. injection Hs as Hs. apply is_success_status_iff in Hs.
        left. eauto.
      * intros [(c & E & _ & Hr) | ((c & E & Hc') & _)].
        -- injection E as <-. f_equal. apply is_success_status_iff. exact Hr.
        -- injection E as <-. contradiction.
      * intros (c & E & Hc'). injection E as <-. contradiction.
      * intros t E. injection E as ->. exfalso. apply Hc. lia.
  - cbn [value trace fst snd].
    repeat split; eauto; try discriminate.
    all: try (intros E; exfalso; exact (Hne _ _ E)).
    all: try (intros (c & E & _); discriminate).
    all: intros [(c & E & _) | ((c & E & _) & _)]; discriminate.
Qed.

End ProberFacts.

(** ** The validator *)

(** C7, as amended: [is_valid_url] is [True] exactly when [urlparse]
    succeeds with scheme [http] or [https] and a non-empty network location
    (the text between "//" and the path: user information, host and port
    together, so the host itself may be empty); on every other string,
    also one [urlparse] rejects with an exception, it is [False]. *)
Theorem is_valid_url_spec (lib : Library) (url : string) :
  (is_valid_url lib url = true <->
   exists parsed,
     urlparse lib url = Some parsed
     /\ (scheme parsed = "http" \/ scheme parsed = "https")
     /\ netloc parsed <> "")
  /\ (is_valid_url lib url = true \/ is_valid_url lib url = false)
  /\ (urlparse lib url = None -> is_valid_url lib url = false).
Proof.
  assert (Hempty : forall s, PyStr.is_empty s = false <-> s <> "").
  { intros [|c s]; simpl; split; congruence. }
  unfold is_valid_url.
  destruct (urlparse lib url) as [parsed|].
  - repeat split.
    + intros H. apply andb_true_iff in H as [Hs Hn].
      exists parsed. split; [reflexivity|]. split.
      * apply orb_true_iff in Hs as [Hs|Hs]; apply String.eqb_eq in Hs; auto.
      * apply Hempty. apply negb_true_iff. exact Hn.
    + intros (p & E & Hs & Hn). injection E as <-.
      apply andb_true_iff. split.
      * apply orb_true_iff.
        destruct Hs as [Hs|Hs]; [left|right]; apply String.eqb_eq; exact Hs.
      * apply negb_true_iff. apply Hempty. exact Hn.
    + destruct (_ && _); auto.
    + discriminate.
  - repeat split; auto.
    + discriminate.
    + intros (p & E & _). discriminate.
Qed.

(** ** The careers-path discoverer *)

Section DiscovererFacts.

Variable lib : Library.
Variable net : Network.

(** A probe returns a boolean and issues one HEAD request, for its URL. *)
Lemma safe_head_shape (url : string) (h : History) :
  exists b new,
    safe_head net url h = (Ok b, h ++ new) /\ head_urls new = [url].
Proof.
  rewrite safe_head_run.
  destruct (http_head net h url) as [code|]; [|eauto].
  destruct (is_error_status code); [|eauto].
  destruct (http_get net (h ++ [ReqHead url]) url) as [[code' text]|]; eauto.
Qed.

Lemma head_urls_app (l1 l2 : list Request) :
  head_urls (l1 ++ l2) = head_urls l1 ++ head_urls l2.
Proof.
  induction l1 as [|[] l1 IH]; simpl; rewrite ?IH; reflexivity.
Qed.

(** A probe of a URL that probes as [b]. *)
Lemma safe_head_probes (url : string) (b : bool) (h : History) :
  probes_as net url b ->
  exists new, safe_head net url h = (Ok b, h ++ new) /\ head_urls new = [url].
Proof.
  intros Hp. destruct (safe_head_shape url h) as (b' & new & E & Hh).
  specialize (Hp h). rewrite E in Hp. simpl in Hp. injection Hp as ->.
  eauto.
Qed.

(** The loop stops at the first suffix whose candidate is reachable. *)
Lemma try_paths_found (base : string) (pre : list string) :
  forall (cands : list string) (s : string) (post : list string) (c : string)
         (h : History),
    Forall2 (fun p cand => urljoin lib base p = Some cand
                           /\ probes_as net cand false) pre cands ->
    urljoin lib base s = Some c ->
    probes_as net c true ->
    exists new,
      try_paths lib net base (pre ++ s :: post) h = (Ok (Some c), h ++ new)
      /\ head_urls new = cands ++ [c].
Proof.
  induction pre as [|p pre IH]; intros cands s post c h Hpre Hs Hc.
  - inversion Hpre; subst. simpl.
    unfold bind, lift. rewrite Hs. unfold ret at 1.
    destruct (safe_head_probes c true h Hc) as (new & E & Hh).
    rewrite E. unfold ret. eauto.
  - inversion Hpre as [|? cand ? cands' [Hj Hp] Hrest]; subst. simpl.
    unfold bind, lift. rewrite Hj. unfold ret at 1.
    destruct (safe_head_probes cand false h Hp) as (new & E & Hh).
    rewrite E.
    destruct (IH cands' s post c (h ++ new) Hrest Hs Hc) as (new' & E' & Hh').
    exists (new ++ new'). rewrite app_assoc. split; [exact E'|].
    rewrite head_urls_app, Hh, Hh'. reflexivity.
Qed.

(** The loop when exactly the candidate of suffix [s] is reachable. *)
Lemma try_paths_only (base s c : string) (paths : list string) :
  forall h,
    In s paths ->
    urljoin lib base s = Some c ->
    (forall p, In p paths ->
               exists cand, urljoin lib base p = Some cand
                            /\ probes_as net cand (String.eqb p s)) ->
    exists h', try_paths lib net base paths h = (Ok (Some c), h').
Proof.
  induction paths as [|p paths IH]; intros h Hin Hs Hall; [contradiction|].
  destruct (Hall p (or_introl eq_refl)) as (cand & Hj & Hp).
  simpl. unfold bind, lift. rewrite Hj. unfold ret at 1.
  destruct (safe_head_probes cand _ h Hp) as (new & E & _). rewrite E.
  destruct (String.eqb_spec p s) as [->|Hne].
  - rewrite Hs in Hj. injection Hj as <-. unfold ret. eauto.
  - apply IH; [|exact Hs|].
    + destruct Hin as [->|Hin]; [contradiction|exact Hin].
    + intros q Hq. apply Hall. right. exact Hq.
Qed.

(** C6: the discoverer probes the suffixes careers, jobs, company/careers,
    about/careers, about-us/careers, career, join-us, work-with-us, joined
    in this order to the slash-normalized base, and returns the first
    reachable candidate; when exactly one suffix gives a reachable
    candidate, that candidate is the result. *)
Theorem discover_first_reachable (domain_url : string) (h : History) :
  let base := slash_normalize domain_url in
  COMMON_CAREER_PATHS =
    [ "careers"; "jobs"; "company/careers"; "about/careers";
      "about-us/careers"; "career"; "join-us"; "work-with-us" ]
  /\ (forall pre s post cands c,
         COMMON_CAREER_PATHS = pre ++ s :: post ->
         Forall2 (fun p cand => urljoin lib base p = Some cand
                                /\ probes_as net cand false) pre cands ->
         urljoin lib base s = Some c ->
         probes_as net c true ->
         exists new,
           discover_careers_from_domain lib net domain_url h
           = (Ok (Some c), h ++ new)
           /\ head_urls new = cands ++ [c])
  /\ (forall s c,
         In s COMMON_CAREER_PATHS ->
         urljoin lib base s = Some c ->
         (forall p, In p COMMON_CAREER_PATHS ->
                    exists cand, urljoin lib base p = Some cand
                                 /\ probes_as net cand (String.eqb p s)) ->
         value (discover_careers_from_domain lib net domain_url h)
         = Ok (Some c)).
Proof.
  cbv zeta. split; [reflexivity|]. split.
  - intros pre s post cands c Hsplit Hpre Hs Hc.
    unfold discover_careers_from_domain. rewrite Hsplit.
    destruct (try_paths_found _ pre cands s post c h Hpre Hs Hc)
      as (new & E & Hh).
    unfold bind. rewrite E. unfold ret. eauto.
  - intros s c Hin Hs Hall.
    unfold discover_careers_from_domain.
    destruct (try_paths_only _ s c _ h Hin Hs Hall) as (h' & E).
    unfold bind. rewrite E. reflexivity.
Qed.

End DiscovererFacts.

(** ** The company resolver *)

Section ResolverFacts.

Variable lib : Library.
Variable net : Network.
Variable cfg : Config.

Lemma parse_or_salvage_run (text : string) (h : History) :
  parse_or_salvage lib (Some text) h =
  match json_loads lib text with
  | Some data => (Ok data, h)
  | None =>
      match re_search_triple lib text with
      | Some group0 =>
          match json_loads lib group0 with
          | Some data => (Ok data, h)
          | None => (Raised, h)
          end
      | None => (Ok (PDict []), h)
      end
  end.
Proof.
  unfold parse_or_salvage, catch, bind, lift, ret, raise.
  destruct (json_loads lib text); [reflexivity|].
  destruct (re_search_triple lib text) as [group0|]; [|reflexivity].
  destruct (json_loads lib group0); reflexivity.
Qed.

(** On a text, parsing with salvage followed by the dict test is
    [object_or_salvage]. *)
Lemma salvage_then_return (text : string) (h : History) :
  catch (bind (parse_or_salvage lib (Some text)) return_if_dict) (ret None) h
  = (Ok (option_map triple (object_or_salvage lib text)), h).
Proof.
  unfold catch, bind. rewrite parse_or_salvage_run.
  unfold object_or_salvage, object_of_text, return_if_dict, ret.
  destruct (json_loads lib text) as [[]|]; try reflexivity.
  destruct (re_search_triple lib text) as [group0|]; [|reflexivity].
  destruct (json_loads lib group0) as [[]|]; reflexivity.
Qed.

Lemma attempt_chat_json_run (user_text : string) (h : History) :
  let q := ReqChat (model cfg) (user_msg user_text) true in
  catch (attempt_chat_json lib net cfg user_text) (ret None) h
  = (Ok (option_map triple
           (chat_json_object lib
              (chat_create net h (model cfg) (user_msg user_text) true))),
     h ++ [q]).
Proof.
  unfold attempt_chat_json, catch, bind, call, lift, ret, raise,
    chat_json_object, object_of_text.
  destruct (chat_create net h (model cfg) (user_msg user_text) true)
    as [[content|]|]; try reflexivity.
  destruct (json_loads lib content) as [[]|]; reflexivity.
Qed.

Lemma attempt_chat_plain_run (user_text : string) (h : History) :
  let q := ReqChat (model cfg) (user_msg user_text) false in
  catch (attempt_chat_plain lib net cfg user_text) (ret None) h
  = (Ok (option_map triple
           (chat_plain_object lib
              (chat_create net h (model cfg) (user_msg user_text) false))),
     h ++ [q]).
Proof.
  cbv zeta. unfold attempt_chat_plain, chat_plain_object.
  unfold catch at 1. unfold bind at 1. unfold call.
  destruct (chat_create net h (model cfg) (user_msg user_text) false)
    as [[content|]|]; try reflexivity.
  pose proof (salvage_then_return content
                (h ++ [ReqChat (model cfg) (user_msg user_text) false])) as E.
  unfold catch in E. exact E.
Qed.

Lemma attempt_responses_run (user_text : string) (h : History) :
  let q := ReqResponses (model cfg) (user_msg user_text) in
  catch (attempt_responses lib net cfg user_text) (ret None) h
  = (Ok (option_map triple
           (responses_object lib
              (responses_create net h (model cfg) (user_msg user_text)))),
     h ++ [q]).
Proof.
  cbv zeta. unfold attempt_responses, responses_object.
  unfold catch at 1. unfold bind at 1. unfold call.
  destruct (responses_create net h (model cfg) (user_msg user_text))
    as [resp|]; [|reflexivity].
  destruct (PyStr.is_empty (first_text resp)); [reflexivity|].
  pose proof (salvage_then_return (first_text resp)
                (h ++ [ReqResponses (model cfg) (user_msg user_text)])) as E.
  unfold catch in E. exact E.
Qed.

(** The resolver as the cascade over the three request shapes. *)
Lemma resolver_run (user_text : string) (h : History) :
  client cfg = true ->
  openai_guess_company_and_urls lib net cfg user_text h
  = (Ok (fst (first_object (request_shapes lib net cfg user_text h))),
     h ++ snd (first_object (request_shapes lib net cfg user_text h))).
Proof.
  intros Hclient. unfold openai_guess_company_and_urls.
  rewrite Hclient. cbn [negb].
  unfold request_shapes, first_object.
  unfold or_next at 1. unfold bind at 1.
  rewrite attempt_chat_json_run.
  destruct (chat_json_object lib _) as [d1|]; [reflexivity|].
  cbn [option_map].
  unfold or_next at 1. unfold bind at 1.
  rewrite attempt_chat_plain_run.
  destruct (chat_plain_object lib _) as [d2|];
    [cbn [option_map fst snd]; unfold ret; rewrite <- app_assoc; reflexivity|].
  cbn [option_map].
  unfold or_next at 1. unfold bind at 1.
  rewrite attempt_responses_run.
  rewrite <- !app_assoc. cbn [app].
  destruct (responses_object lib _) as [d3|]; reflexivity.
Qed.

(** Without a client no request is issued. *)
Lemma resolver_without_client (user_text : string) (h : History) :
  client cfg = false ->
  openai_guess_company_and_urls lib net cfg user_text h = (Ok [], h).
Proof.
  intros Hclient. unfold openai_guess_company_and_urls.
  rewrite Hclient. reflexivity.
Qed.

Lemma resolver_returns (user_text : string) (h : History) :
  exists d new,
    openai_guess_company_and_urls lib net cfg user_text h = (Ok d, h ++ new).
Proof.
  destruct (client cfg) eqn:Hclient.
  - rewrite resolver_run by assumption. eauto.
  - rewrite resolver_without_client by assumption.
    exists [], []. rewrite app_nil_r. reflexivity.
Qed.


End ResolverFacts.

(** ** The orchestrator *)

Section OrchestratorFacts.

Variable lib : Library.
Variable net : Network.
Variable cfg : Config.

Lemma ddg_first_result_run (query : string) (h : History) :
  ddg_first_result lib net query h
  = (Ok (first_result lib net query h), h ++ [ReqSearch query]).
Proof.
  unfold ddg_first_result, first_result, catch, bind, call, lift, ret, raise.
  destruct (ddg_get net h query) as [[code text]|]; [|reflexivity].
  destruct (code =? 200)%Z; [|reflexivity]. cbn [negb].
  destruct (soup_result_links lib text); reflexivity.
Qed.

Lemma first_absolute_nonempty (links : list (option string)) (url : string) :
  first_absolute links = Some url -> PyStr.is_empty url = false.
Proof.
  induction links as [|[l|] links IH]; simpl; [discriminate| |exact IH].
  destruct (PyStr.is_empty l) eqn:El; cbn [negb andb]; [exact IH|].
  destruct (_ || _); [|exact IH].
  intros E. injection E as <-. exact El.
Qed.

Lemma first_result_nonempty (query : string) (h : History) (url : string) :
  first_result lib net query h = Some url -> PyStr.is_empty url = false.
Proof.
  unfold first_result.
  destruct (ddg_get net h query) as [[code text]|]; [|discriminate].
  destruct (code =? 200)%Z; [|discriminate].
  destruct (soup_result_links lib text); [|discriminate].
  apply first_absolute_nonempty.
Qed.

(** One field of the search fallback never raises and makes a
    [search_step]. *)
Lemma search_field_step (query : string) (current : pyval) (h : History) :
  exists result h',
    search_field lib net query current h = (Ok result, h')
    /\ search_step lib net query current h result h'.
Proof.
  unfold search_field.
  destruct (truthy current) eqn:Ht; cbn [negb].
  - exists current, h. split; [reflexivity|]. constructor. exact Ht.
  - unfold bind. rewrite ddg_first_result_run.
    destruct (first_result lib net query h) as [url|] eqn:Hr.
    + unfold accept_if_reachable.
      rewrite (first_result_nonempty _ _ _ Hr).
      destruct (safe_head_shape net url (h ++ [ReqSearch query]))
        as (b & new & E & _).
      unfold bind. rewrite E. unfold ret.
      destruct b; eexists; eexists; (split; [reflexivity|]).
      * eapply step_accepted; eassumption.
      * eapply step_rejected; eassumption.
    + exists current, (h ++ [ReqSearch query]). split; [reflexivity|].
      apply step_no_result; assumption.
Qed.

(** The two fields of the search fallback, one after the other. *)
Lemma search_fallback_steps (hint : string) (official careers : pyval)
    (h : History) :
  exists official' careers' h1 h2,
    search_fallback lib net hint official careers h
    = (Ok (official', careers'), h2)
    /\ search_step lib net (hint ++ " official site")%string official h
         official' h1
    /\ search_step lib net (hint ++ " careers site")%string careers h1
         careers' h2.
Proof.
  unfold search_fallback.
  destruct (search_field_step (hint ++ " official site")%string official h)
    as (o & h1 & E1 & S1).
  destruct (search_field_step (hint ++ " careers site")%string careers h1)
    as (c & h2 & E2 & S2).
  exists o, c, h1, h2. unfold bind. rewrite E1, E2. auto.
Qed.

Lemma catch_none_returns {A} (m : M (option A)) (h : History) :
  exists o h', catch m (ret None) h = (Ok o, h').
Proof.
  unfold catch. destruct (m h) as [[o|] h']; eauto.
  unfold ret. eauto.
Qed.

Lemma scan_homepage_returns (domain_url : string) (h : History) :
  exists o h', scan_homepage lib net domain_url h = (Ok o, h').
Proof. apply catch_none_returns. Qed.

(** The loop over the paths returns when every join succeeds. *)
Lemma try_paths_returns (base : string) (paths : list string) :
  (forall p, In p paths -> urljoin lib base p <> None) ->
  forall h, exists o h', try_paths lib net base paths h = (Ok o, h').
Proof.
  induction paths as [|p paths IH]; intros Hj h; simpl.
  - unfold ret. eauto.
  - destruct (urljoin lib base p) as [cand|] eqn:E;
      [|exfalso; exact (Hj p (or_introl eq_refl) E)].
    unfold bind, lift. unfold ret at 1.
    destruct (safe_head_shape net cand h) as ([] & new & Es & _); rewrite Es.
    + unfold ret. eauto.
    + apply IH. intros q Hq. apply Hj. right. exact Hq.
Qed.

Lemma discover_returns (domain_url : string) (h : History) :
  (forall p, In p COMMON_CAREER_PATHS ->
             urljoin lib (slash_normalize domain_url) p <> None) ->
  exists o h', discover_careers_from_domain lib net domain_url h = (Ok o, h').
Proof.
  intros Hj. unfold discover_careers_from_domain.
  destruct (try_paths_returns _ _ Hj h) as (o & h' & E).
  unfold bind. rewrite E.
  destruct o as [cand|]; [unfold ret; eauto|].
  apply scan_homepage_returns.
Qed.

Lemma popular_map_returns (key dom : string) (h : History) :
  (forall p, In p COMMON_CAREER_PATHS ->
             urljoin lib (slash_normalize dom) p <> None) ->
  exists careers h',
    popular_map lib net key dom h
    = (Ok (PStr dom, careers, [("mode", PStr "popular_map")]), h').
Proof.
  intros Hj. unfold popular_map.
  destruct (discover_returns dom h Hj) as (o & h' & E).
  unfold bind. rewrite E.
  destruct (truthy (py_of_opt o)).
  - unfold ret. eauto.
  - rewrite ddg_first_result_run. unfold ret. eauto.
Qed.

Lemma popular_lookup_first (hint key dom : string) :
  popular_lookup hint = Some (key, dom) <->
  exists before after,
    POPULAR_DOMAINS = before ++ (key, dom) :: after
    /\ PyStr.contains hint key = true
    /\ forall entry, In entry before ->
                     PyStr.contains hint (fst entry) = false.
Proof.
  unfold popular_lookup. generalize POPULAR_DOMAINS as table.
  induction table as [|[k d] table IH]; simpl.
  - split; [discriminate|]. intros ([|? ?] & after & E & _); discriminate.
  - destruct (PyStr.contains hint k) eqn:Hk.
    + split.
      * intros E. injection E as <- <-. exists [], table.
        split; [reflexivity|]. split; [exact Hk|]. intros e [].
      * intros ([|e before] & after & E & Hc & Hb).
        -- injection E as <- <- _. reflexivity.
        -- injection E as <- _.
           specialize (Hb (k, d) (or_introl eq_refl)). simpl in Hb. congruence.
    + rewrite IH. split.
      * intros (before & after & -> & Hc & Hb).
        exists ((k, d) :: before), after.
        split; [reflexivity|]. split; [exact Hc|].
        intros e [<-|He]; [exact Hk|apply Hb; exact He].
      * intros ([|e before] & after & E & Hc & Hb).
        -- injection E as <- <- _. congruence.
        -- injection E as <- ->. exists before, after.
           split; [reflexivity|]. split; [exact Hc|].
           intros e He. apply Hb. right. exact He.
Qed.

End OrchestratorFacts.

Section CascadeFacts.

Variable lib : Library.
Variable net : Network.
Variable cfg : Config.

Lemma nonempty_truthy (s : string) : s <> "" -> truthy (PStr s) = true.
Proof. destruct s; [congruence|reflexivity]. Qed.

(** A truthy value kept by [search_field] costs no request. *)
Lemma search_field_kept (query : string) (current : pyval) (h : History) :
  truthy current = true ->
  search_field lib net query current h = (Ok current, h).
Proof. intros Ht. unfold search_field. rewrite Ht. reflexivity. Qed.

Lemma safe_head_value_returns (v : pyval) (h : History) :
  exists b h', safe_head_value net v h = (Ok b, h').
Proof.
  destruct v; simpl; unfold ret; eauto.
  destruct (safe_head_shape net s h) as (b & new & E & _). eauto.
Qed.

Lemma search_fallback_returns (hint : string) (official careers : pyval)
    (h : History) :
  exists v h', search_fallback lib net hint official careers h = (Ok v, h').
Proof.
  destruct (search_fallback_steps lib net hint official careers h)
    as (o & c & h1 & h2 & E & _).
  eauto.
Qed.

(** The steps after the resolver return when every join of a career path
    succeeds. *)
Lemma ask_openai_returns (user_text hint : string) (h : History) :
  (forall base p, In p COMMON_CAREER_PATHS -> urljoin lib base p <> None) ->
  exists v h', ask_openai lib net cfg user_text hint h = (Ok v, h').
Proof.
  intros Hj. unfold ask_openai.
  destruct (resolver_returns lib net cfg user_text h) as (ai & new & E).
  unfold bind at 1. rewrite E.
  set (official := dict_get ai "official_website").
  set (careers := dict_get ai "careers_url").
  assert (Hfinish : forall o c h0,
             exists v h',
               bind (search_fallback lib net hint o c)
                 (fun x : pyval * pyval =>
                    let (official0, careers0) := x in
                    ret (official0, careers0,
                         [("hint", PStr hint); ("openai_raw", PDict ai)])) h0
               = (Ok v, h')).
  { intros o c h0.
    destruct (search_fallback_returns hint o c h0) as ([o' c'] & h' & Ef).
    unfold bind. rewrite Ef. unfold ret. eauto. }
  assert (Hcareers : forall url h0,
             exists c h',
               bind (if negb (truthy careers)
                     then ret true
                     else bind (safe_head_value net careers)
                            (fun ok => ret (negb ok)))
                 (fun unusable : bool =>
                    if unusable
                    then bind (discover_value lib net (PStr url))
                           (fun discovered =>
                              ret (py_or (py_of_opt discovered) careers))
                    else ret careers) h0
               = (Ok c, h')).
  { intros url h0.
    assert (Hd : forall h1,
               exists c h',
                 bind (discover_value lib net (PStr url))
                   (fun discovered =>
                      ret (py_or (py_of_opt discovered) careers)) h1
                 = (Ok c, h')).
    { intros h1. simpl.
      destruct (discover_returns lib net url h1) as (o & h' & Ed).
      - intros p Hp. apply Hj. exact Hp.
      - unfold bind. rewrite Ed. unfold ret. eauto. }
    unfold bind at 1.
    destruct (truthy careers); cbn [negb].
    - destruct (safe_head_value_returns careers h0) as (b & h1 & Es).
      unfold bind at 1. rewrite Es. unfold ret at 1.
      destruct b; cbn [negb]; [unfold ret; eauto|apply Hd].
    - unfold ret at 1. apply Hd. }
  destruct (truthy official) eqn:Ht.
  - destruct (safe_head_value_returns official (h ++ new)) as (b & h1 & Es).
    unfold bind at 1. unfold bind at 1. rewrite Es. unfold ret at 1.
    destruct b.
    + rewrite Ht.
      destruct official as [| | | |url| |]; simpl in Es;
        try (unfold ret in Es; discriminate).
      destruct (Hcareers url h1) as (c & h2 & Ec).
      unfold bind at 1. rewrite Ec. apply Hfinish.
    + cbn [truthy]. unfold bind at 1. unfold ret at 1. apply Hfinish.
  - unfold bind at 1. unfold ret at 1. rewrite Ht.
    unfold bind at 1. unfold ret at 1. apply Hfinish.
Qed.

Lemma direct_url_returns (user_text : string) (h : History) :
  is_valid_url lib user_text = true ->
  (forall base p, In p COMMON_CAREER_PATHS -> urljoin lib base p <> None) ->
  exists v h', direct_url lib net user_text h = (Ok v, h').
Proof.
  intros Hv Hj. unfold is_valid_url in Hv. unfold direct_url.
  destruct (urlparse lib user_text) as [parsed|]; [|discriminate].
  unfold bind at 1. unfold lift, ret at 1.
  destruct (PyStr.contains _ "career" || PyStr.contains _ "job").
  - destruct (truthy (PStr user_text)); cbn [negb].
    + unfold bind, ret. eauto.
    + destruct (discover_returns lib net
                  (scheme parsed ++ "://" ++ netloc parsed)%string h)
        as (o & h' & Ed); [intros p Hp; apply Hj; exact Hp|].
      unfold bind. rewrite Ed. unfold ret. eauto.
  - cbn [truthy negb].
    destruct (discover_returns lib net
                (scheme parsed ++ "://" ++ netloc parsed)%string h)
      as (o & h' & Ed); [intros p Hp; apply Hj; exact Hp|].
    unfold bind. rewrite Ed. unfold ret. eauto.
Qed.

(** The orchestrator returns whenever no join of a career path raises: the
    call of [urljoin] in the loop of the discoverer is the only operation
    outside a [try]. *)
Lemma orchestrator_returns_when_joins_succeed (user_text : string)
    (h : History) :
  (forall base p, In p COMMON_CAREER_PATHS -> urljoin lib base p <> None) ->
  exists v h',
    best_urls_from_all_signals lib net cfg user_text h = (Ok v, h').
Proof.
  intros Hj. unfold best_urls_from_all_signals.
  destruct (is_valid_url lib user_text) eqn:Hv.
  - apply direct_url_returns; assumption.
  - destruct (popular_lookup (normalize_company user_text)) as [[key dom]|].
    + destruct (popular_map_returns lib net key dom h) as (c & h' & E);
        [intros p Hp; apply Hj; exact Hp|].
      eauto.
    + apply ask_openai_returns. exact Hj.
Qed.

End CascadeFacts.

(** ** The claims on the cascade *)

Section CascadeClaims.

Variable lib : Library.
Variable net : Network.
Variable cfg : Config.


(** The popular-domain branch, by the first table entry the hint holds. *)
Lemma popular_branch_run (user_text key dom : string) (h : History) :
  is_valid_url lib user_text = false ->
  popular_lookup (normalize_company user_text) = Some (key, dom) ->
  (forall p, In p COMMON_CAREER_PATHS ->
             urljoin lib (slash_normalize dom) p <> None) ->
  exists careers h',
    best_urls_from_all_signals lib net cfg user_text h
    = (Ok (PStr dom, careers, [("mode", PStr "popular_map")]), h').
Proof.
  intros Hv Hl Hj. unfold best_urls_from_all_signals. rewrite Hv, Hl.
  apply popular_map_returns. exact Hj.
Qed.

(** C3, as amended: for an input that is not a valid URL and whose hint
    holds a key of the popular-domain table, the official result is the
    homepage of the first such key in table order, whatever the probes
    answer (given that joining the career paths to that homepage does not
    raise); in particular "Nvidia" gives "https://www.nvidia.com". *)
Theorem popular_shortcut_official (user_text : string) (h : History) :
  is_valid_url lib user_text = false ->
  (forall key dom before after,
      POPULAR_DOMAINS = before ++ (key, dom) :: after ->
      PyStr.contains (normalize_company user_text) key = true ->
      (forall entry, In entry before ->
         PyStr.contains (normalize_company user_text) (fst entry) = false) ->
      (forall p, In p COMMON_CAREER_PATHS ->
                 urljoin lib (slash_normalize dom) p <> None) ->
      exists careers h',
        best_urls_from_all_signals lib net cfg user_text h
        = (Ok (PStr dom, careers, [("mode", PStr "popular_map")]), h'))
  /\ (user_text = "Nvidia" ->
      (forall p, In p COMMON_CAREER_PATHS ->
                 urljoin lib "https://www.nvidia.com/" p <> None) ->
      exists careers h',
        best_urls_from_all_signals lib net cfg user_text h
        = (Ok (PStr "https://www.nvidia.com", careers,
               [("mode", PStr "popular_map")]), h')).
Proof.
  intros Hv. split.
  - intros key dom before after Hsplit Hc Hb Hj.
    apply (popular_branch_run user_text key dom); [exact Hv| |exact Hj].
    apply popular_lookup_first. eauto.
  - intros -> Hj.
    apply (popular_branch_run "Nvidia" "nvidia" "https://www.nvidia.com");
      [exact Hv|reflexivity|exact Hj].
Qed.

(** C8, as amended: for an input that is a valid URL the official site is
    the scheme, "://" and the network location of the input as written
    (with its user information and port, when it has them, not the host
    alone); when the lower-cased path holds
    "career" or "job" the careers result is the input itself and nothing is
    probed; otherwise it is what the discoverer finds on the official site,
    and the input when the discoverer finds nothing; in particular
    "https://openai.com/careers" gives "https://openai.com" and itself. *)
Theorem direct_url_spec (user_text : string) (parsed : ParseResult)
    (h : History) :
  is_valid_url lib user_text = true ->
  urlparse lib user_text = Some parsed ->
  user_text <> "" ->
  let official := (scheme parsed ++ "://" ++ netloc parsed)%string in
  let lowered := PyStr.lower (path parsed) in
  let mode := [("mode", PStr "direct_url")] in
  (PyStr.contains lowered "career" = true \/ PyStr.contains lowered "job" = true ->
   best_urls_from_all_signals lib net cfg user_text h
   = (Ok (PStr official, PStr user_text, mode), h))
  /\ (PyStr.contains lowered "career" = false ->
      PyStr.contains lowered "job" = false ->
      (forall found h',
          discover_careers_from_domain lib net official h = (Ok (Some found), h') ->
          found <> "" ->
          best_urls_from_all_signals lib net cfg user_text h
          = (Ok (PStr official, PStr found, mode), h'))
      /\ (forall h',
             discover_careers_from_domain lib net official h = (Ok None, h') ->
             best_urls_from_all_signals lib net cfg user_text h
             = (Ok (PStr official, PStr user_text, mode), h')))
  /\ (user_text = "https://openai.com/careers" ->
      parsed = mkParse "https" "openai.com" "/careers" ->
      best_urls_from_all_signals lib net cfg user_text h
      = (Ok (PStr "https://openai.com", PStr "https://openai.com/careers",
             mode), h)).
Proof.
  intros Hv Hp Hne. cbv zeta.
  unfold best_urls_from_all_signals, direct_url. rewrite Hv, Hp.
  pose proof (nonempty_truthy user_text Hne) as Ht.
  unfold bind, lift, ret. cbv beta zeta.
  split; [|split].
  - intros Hc.
    assert (E : PyStr.contains (PyStr.lower (path parsed)) "career"
                || PyStr.contains (PyStr.lower (path parsed)) "job" = true).
    { apply orb_true_iff. exact Hc. }
    rewrite E, Ht. reflexivity.
  - intros Hc Hj. rewrite Hc, Hj. cbn [orb truthy negb]. split.
    + intros found h' Hd Hf. rewrite Hd. unfold py_or.
      cbn [py_of_opt]. rewrite (nonempty_truthy found Hf). reflexivity.
    + intros h' Hd. rewrite Hd. reflexivity.
  - intros -> ->. reflexivity.
Qed.

(** C9: without an API key the resolver returns the empty dict at once,
    issuing none of the three requests, and the orchestrator, past the
    direct-URL and popular-domain branches, returns what the search
    fallback finds from two absent fields. *)
Theorem no_client_falls_through (user_text : string) (h : History) :
  openai_api_key cfg = "" ->
  openai_guess_company_and_urls lib net cfg user_text h = (Ok [], h)
  /\ (is_valid_url lib user_text = false ->
      popular_lookup (normalize_company user_text) = None ->
      exists official careers h',
        search_fallback lib net (normalize_company user_text) PNone PNone h
        = (Ok (official, careers), h')
        /\ best_urls_from_all_signals lib net cfg user_text h
           = (Ok (official, careers,
                  [("hint", PStr (normalize_company user_text));
                   ("openai_raw", PDict [])]), h')).
Proof.
  intros Hkey.
  assert (Hclient : client cfg = false).
  { unfold client. rewrite Hkey. reflexivity. }
  split; [apply resolver_without_client; exact Hclient|].
  intros Hv Hl.
  destruct (search_fallback_steps lib net (normalize_company user_text)
              PNone PNone h) as (o & c & h1 & h2 & E & _).
  exists o, c, h2. split; [exact E|].
  unfold best_urls_from_all_signals. rewrite Hv, Hl.
  unfold ask_openai.
  rewrite (bind_ok _ _ _ _ _ (resolver_without_client lib net cfg _ h Hclient)).
  cbn [dict_get truthy]. rewrite bind_ret. cbn [truthy]. rewrite bind_ret.
  rewrite (bind_ok _ _ _ _ _ E). reflexivity.
Qed.

(** C10: in the language-model branch, when the resolver gives a reachable
    official site and a non-empty careers URL whose probe fails, and the
    discoverer finds nothing on the official site, the careers URL of the
    resolver is the careers result, and the run ends with the discoverer:
    no search is issued for either field. *)
Theorem unreachable_llm_careers_kept (user_text official careers : string)
    (ai : pydict) (h h1 h2 h3 h4 : History) :
  is_valid_url lib user_text = false ->
  popular_lookup (normalize_company user_text) = None ->
  openai_guess_company_and_urls lib net cfg user_text h = (Ok ai, h1) ->
  dict_get ai "official_website" = PStr official ->
  dict_get ai "careers_url" = PStr careers ->
  official <> "" ->
  careers <> "" ->
  safe_head net official h1 = (Ok true, h2) ->
  safe_head net careers h2 = (Ok false, h3) ->
  discover_careers_from_domain lib net official h3 = (Ok None, h4) ->
  best_urls_from_all_signals lib net cfg user_text h
  = (Ok (PStr official, PStr careers,
         [("hint", PStr (normalize_company user_text));
          ("openai_raw", PDict ai)]), h4).
Proof.
  intros Hv Hl Hai Ho Hc Hno Hnc Hso Hsc Hd.
  pose proof (nonempty_truthy official Hno) as Hto.
  pose proof (nonempty_truthy careers Hnc) as Htc.
  unfold best_urls_from_all_signals. rewrite Hv, Hl.
  unfold ask_openai.
  run_with Hai. rewrite Ho, Hc, Hto. tidy.
  run_with Hso. tidy. rewrite Hto, Htc. tidy.
  run_with Hsc. tidy.
  run_with Hd. tidy. cbn [truthy].
  unfold search_fallback.
  run_with (search_field_kept lib net
              (normalize_company user_text ++ " official site")%string
              _ h4 Hto).
  run_with (search_field_kept lib net
              (normalize_company user_text ++ " careers site")%string
              _ h4 Htc).
  reflexivity.
Qed.

End CascadeClaims.
Example normalize_nvidia : normalize_company "Nvidia" = "nvidia".
Proof. reflexivity. Qed.

Example normalize_legal_suffix : normalize_company "  Acme   LLC  " = "acme".
Proof. reflexivity. Qed.

Example normalize_inc_dot : normalize_company "Acme Inc." = "acme .".
Proof. reflexivity. Qed.

Example normalize_co_uk : normalize_company "co.uk" = "uk".
Proof. reflexivity. Qed.

Example normalize_inner_token : normalize_company "The Company  X" = "the x".
Proof. reflexivity. Qed.

Example normalize_no_boundary : normalize_company "companyx" = "companyx".
Proof. reflexivity. Qed.

(** ** The program on concrete worlds *)

Section Concrete.

Import Worlds.

Example valid_url_examples :
  is_valid_url lib_plain "https://openai.com/careers" = true
  /\ is_valid_url lib_plain "HTTP://example.com" = true
  /\ is_valid_url lib_plain "Nvidia" = false
  /\ is_valid_url lib_plain "openai.com/careers" = false
  /\ is_valid_url lib_plain "ftp://example.com/" = false
  /\ is_valid_url lib_plain "https:///careers" = false
  /\ is_valid_url lib_plain "http://[example.com" = false.
Proof. repeat split. Qed.

(** C2: the orchestrator is meant never to raise, but the join of a career
    path in the loop of the discoverer is outside every [try].  With a
    language model that proposes the official site
    "http://user[@example.com" and a server that answers the probe of it,
    [urljoin] raises on the slash-normalized base and the orchestrator
    raises to its caller. *)
Theorem unguarded_join_raises :
  is_valid_url lib_bracket "acme robotics" = false
  /\ popular_lookup (normalize_company "acme robotics") = None
  /\ value (openai_guess_company_and_urls lib_bracket net_bracket
              Demo.with_key "acme robotics" [])
     = Ok (triple (map (fun kv => (fst kv, PStr (snd kv))) bracket))
  /\ probes_as net_bracket "http://user[@example.com" true
  /\ urljoin lib_bracket "http://user[@example.com/" "careers" = None
  /\ best_urls_from_all_signals lib_bracket net_bracket Demo.with_key
       "acme robotics" []
     = (Raised,
        [ ReqChat "gpt-4.1-mini" (user_msg "acme robotics") true;
          ReqHead "http://user[@example.com" ]).
Proof.
  repeat split; vm_compute; reflexivity.
Qed.


(** C3, counterexample: the hint "google meta" holds the key "meta", but
    the official result is the homepage of "google", the first key of the
    table the hint holds. *)
Lemma first_table_key_wins :
  is_valid_url lib_plain "google meta" = false
  /\ In ("meta", "https://about.meta.com") POPULAR_DOMAINS
  /\ PyStr.contains (normalize_company "google meta") "meta" = true
  /\ value (best_urls_from_all_signals lib_plain net_offline
              Demo.without_key "google meta" [])
     = Ok (PStr "https://about.google", PNone, [("mode", PStr "popular_map")])
  /\ "https://about.google" <> "https://about.meta.com".
Proof.
  repeat split; try (vm_compute; reflexivity).
  - simpl. tauto.
  - discriminate.
Qed.


End Concrete.

(** ** Instances of the theorems with hypotheses *)

Section Instances.

Import Worlds.

Lemma demo_joins_succeed (base : string) :
  Demo.parse_url base <> None ->
  PyStr.is_empty base = false ->
  forall p, In p COMMON_CAREER_PATHS -> Demo.join_url base p <> None.
Proof.
  intros Hb Hne p Hp. unfold Demo.join_url. rewrite Hne.
  destruct (Demo.parse_url base) as [b|]; [|congruence].
  simpl in Hp.
  repeat (destruct Hp as [<-|Hp]; [vm_compute; discriminate|]).
  contradiction.
Defined.


(** "Nvidia" with nothing reachable. *)
Lemma popular_shortcut_witness :
  exists careers h',
    best_urls_from_all_signals lib_plain net_offline Demo.without_key
      "Nvidia" []
    = (Ok (PStr "https://www.nvidia.com", careers,
           [("mode", PStr "popular_map")]), h').
Proof.
  apply (proj1 (popular_shortcut_official lib_plain net_offline
                  Demo.without_key "Nvidia" [] eq_refl)
           "nvidia" "https://www.nvidia.com"
           (firstn 7 POPULAR_DOMAINS) (skipn 8 POPULAR_DOMAINS)).
  - reflexivity.
  - reflexivity.
  - intros entry Hin. simpl in Hin.
    repeat (destruct Hin as [<-|Hin]; [reflexivity|]). contradiction.
  - apply demo_joins_succeed; [vm_compute; discriminate|reflexivity].
Defined.

(** The discoverer on a site where only "jobs" is reachable. *)
Lemma discover_first_reachable_witness :
  exists new,
    discover_careers_from_domain lib_plain net_jobs "https://example.com" []
    = (Ok (Some "https://example.com/jobs"), [] ++ new)
    /\ head_urls new
       = ["https://example.com/careers"] ++ ["https://example.com/jobs"].
Proof.
  apply (proj1 (proj2 (discover_first_reachable lib_plain net_jobs
                         "https://example.com" []))
           ["careers"] "jobs"
           (skipn 2 COMMON_CAREER_PATHS)).
  - reflexivity.
  - constructor; [|constructor].
    split; [reflexivity|]. intros h. rewrite safe_head_run. reflexivity.
  - reflexivity.
  - intros h. rewrite safe_head_run. reflexivity.
Defined.

(** The direct-URL branch on "https://openai.com/careers". *)
Lemma direct_url_witness :
  best_urls_from_all_signals lib_plain net_offline Demo.without_key
    "https://openai.com/careers" []
  = (Ok (PStr "https://openai.com", PStr "https://openai.com/careers",
         [("mode", PStr "direct_url")]), []).
Proof.
  refine (proj2 (proj2 (direct_url_spec lib_plain net_offline
                          Demo.without_key "https://openai.com/careers"
                          (mkParse "https" "openai.com" "/careers") []
                          eq_refl eq_refl _)) eq_refl eq_refl).
  discriminate.
Defined.

(** Without a key on an input that is neither a URL nor a popular name. *)
Lemma no_client_witness :
  openai_guess_company_and_urls lib_results net_second_reachable
    Demo.without_key "acme robotics" [] = (Ok [], [])
  /\ exists official careers h',
       search_fallback lib_results net_second_reachable
         (normalize_company "acme robotics") PNone PNone []
       = (Ok (official, careers), h')
       /\ best_urls_from_all_signals lib_results net_second_reachable
            Demo.without_key "acme robotics" []
          = (Ok (official, careers,
                 [("hint", PStr (normalize_company "acme robotics"));
                  ("openai_raw", PDict [])]), h').
Proof.
  pose proof (no_client_falls_through lib_results net_second_reachable
                Demo.without_key "acme robotics" [] eq_refl) as [H1 H2].
  split; [exact H1|]. apply H2; reflexivity.
Defined.

(** The stale careers URL of the language model is kept. *)
Lemma unreachable_llm_careers_kept_witness :
  exists h4,
    best_urls_from_all_signals lib_stale net_stale Demo.with_key
      "acme robotics" []
    = (Ok (PStr "https://acme.example", PStr "https://acme.example/old-jobs",
           [("hint", PStr (normalize_company "acme robotics"));
            ("openai_raw",
             PDict (triple (map (fun kv => (fst kv, PStr (snd kv))) stale)))]),
       h4).
Proof.
  eexists.
  eapply (unreachable_llm_careers_kept lib_stale net_stale Demo.with_key
            "acme robotics" "https://acme.example"
            "https://acme.example/old-jobs").
  - reflexivity.
  - reflexivity.
  - vm_compute. reflexivity.
  - reflexivity.
  - reflexivity.
  - discriminate.
  - discriminate.
  - vm_compute. reflexivity.
  - vm_compute. reflexivity.
  - vm_compute. reflexivity.
Defined.

End Instances.


(** * Further properties *)

(** ** [normalize_company] *)

Section NormalizeFacts.

Lemma space_not_upper (c : ascii) :
  PyStr.is_space c = true -> PyStr.between 65 90 c = false.
Proof.
  destruct c as [[] [] [] [] [] [] [] []]; vm_compute; congruence.
Qed.

Lemma lower_char_space (c : ascii) :
  PyStr.is_space (PyStr.lower_char c) = PyStr.is_space c.
Proof. destruct c as [[] [] [] [] [] [] [] []]; reflexivity. Qed.

Lemma lower_char_not_upper (c : ascii) :
  PyStr.between 65 90 (PyStr.lower_char c) = false.
Proof. destruct c as [[] [] [] [] [] [] [] []]; reflexivity. Qed.

Lemma lower_char_fixed (c : ascii) :
  PyStr.between 65 90 c = false -> PyStr.lower_char c = c.
Proof. unfold PyStr.lower_char. intros ->. reflexivity. Qed.

Lemma lower_fixed (s : string) :
  all_of not_upper s = true -> PyStr.lower s = s.
Proof.
  induction s as [|c r IH]; simpl; [reflexivity|].
  intros H. apply andb_true_iff in H as [Hc Hr].
  rewrite IH by exact Hr. rewrite lower_char_fixed; [reflexivity|].
  apply negb_true_iff. exact Hc.
Qed.

Lemma lower_all (s : string) : all_of not_upper (PyStr.lower s) = true.
Proof.
  induction s as [|c r IH]; simpl; [reflexivity|].
  unfold not_upper at 1. rewrite lower_char_not_upper, IH. reflexivity.
Qed.

Lemma lstrip_all (p : ascii -> bool) (s : string) :
  all_of p s = true -> all_of p (PyStr.lstrip s) = true.
Proof.
  induction s as [|c r IH]; simpl; [reflexivity|].
  intros H. destruct (PyStr.is_space c); [|exact H].
  apply IH. apply andb_true_iff in H. tauto.
Qed.

Lemma rstrip_all (p : ascii -> bool) (s : string) :
  all_of p s = true -> all_of p (PyStr.rstrip s) = true.
Proof.
  induction s as [|c r IH]; simpl; [reflexivity|].
  intros H. apply andb_true_iff in H as [Hc Hr].
  destruct (PyStr.is_space c && PyStr.is_empty (PyStr.rstrip r));
    [reflexivity|].
  simpl. rewrite Hc, IH by exact Hr. reflexivity.
Qed.

Lemma strip_all (p : ascii -> bool) (s : string) :
  all_of p s = true -> all_of p (PyStr.strip s) = true.
Proof. intros H. apply rstrip_all, lstrip_all, H. Qed.

Lemma drop_legal_all (p : ascii -> bool) (s : string) :
  forall prev skip,
    all_of p s = true -> all_of p (drop_legal prev skip s) = true.
Proof.
  induction s as [|c r IH]; intros prev skip H; simpl; [reflexivity|].
  apply andb_true_iff in H as [Hc Hr].
  destruct skip as [|k]; [|apply IH; exact Hr].
  destruct (match_legal prev (String c r)) as [[|k]|];
    try (simpl; rewrite Hc, IH by exact Hr; reflexivity).
  apply IH. exact Hr.
Qed.

Lemma collapse_ws_all (p : ascii -> bool) (s : string) :
  p " "%char = true ->
  forall in_run,
    all_of p s = true -> all_of p (collapse_ws in_run s) = true.
Proof.
  intros Hsp. induction s as [|c r IH]; intros in_run H; simpl;
    [reflexivity|].
  apply andb_true_iff in H as [Hc Hr].
  destruct (PyStr.is_space c).
  - destruct in_run; [apply IH; exact Hr|].
    simpl. rewrite Hsp, IH by exact Hr. reflexivity.
  - simpl. rewrite Hc, IH by exact Hr. reflexivity.
Qed.

(** X2: for ASCII input the hint holds no upper-case letter: lower-casing
    it again changes nothing. *)
Theorem normalize_company_lower (user_text : string) :
  all_of is_ascii user_text = true ->
  PyStr.lower (normalize_company user_text) = normalize_company user_text.
Proof.
  intros _. apply lower_fixed. unfold normalize_company.
  apply strip_all, collapse_ws_all; [reflexivity|].
  apply drop_legal_all, lower_all.
Qed.

Lemma collapse_ws_loose (s : string) :
  forall in_run,
    loosely_spaced (collapse_ws in_run s) = true
    /\ (in_run = true -> space_head (collapse_ws in_run s) = false).
Proof.
  induction s as [|c r IH]; intros in_run; simpl; [auto|].
  destruct (PyStr.is_space c) eqn:Hc.
  - destruct in_run.
    + apply IH.
    + split; [|discriminate]. simpl.
      destruct (IH true) as [Hl Hh]. rewrite Hl, Hh by reflexivity.
      reflexivity.
  - split.
    + simpl. rewrite Hc. apply IH.
    + intros _. simpl. exact Hc.
Qed.

Lemma lstrip_loose (s : string) :
  loosely_spaced s = true ->
  loosely_spaced (PyStr.lstrip s) = true
  /\ space_head (PyStr.lstrip s) = false.
Proof.
  induction s as [|c r IH]; simpl; [auto|].
  intros H. apply andb_true_iff in H as [Hc Hr].
  destruct (PyStr.is_space c) eqn:Hs; [apply IH; exact Hr|].
  simpl. rewrite Hs, Hr. auto.
Qed.

Lemma rstrip_head (s : string) :
  PyStr.is_empty (PyStr.rstrip s) = false ->
  space_head (PyStr.rstrip s) = space_head s.
Proof.
  destruct s as [|c r]; simpl; [reflexivity|].
  destruct (PyStr.is_space c && PyStr.is_empty (PyStr.rstrip r));
    [discriminate|reflexivity].
Qed.

Lemma rstrip_head_kept (s : string) :
  space_head s = false -> space_head (PyStr.rstrip s) = false.
Proof.
  destruct s as [|c r]; simpl; [reflexivity|].
  intros Hc. rewrite Hc. simpl. exact Hc.
Qed.

Lemma rstrip_single_spaced (s : string) :
  loosely_spaced s = true -> single_spaced (PyStr.rstrip s) = true.
Proof.
  induction s as [|c r IH]; simpl; [reflexivity|].
  intros H. apply andb_true_iff in H as [Hc Hr].
  specialize (IH Hr).
  destruct (PyStr.is_space c) eqn:Hs; cbn [andb].
  - destruct (PyStr.is_empty (PyStr.rstrip r)) eqn:He; [reflexivity|].
    simpl. rewrite Hs, He, IH.
    apply andb_true_iff in Hc as [Hsp Hh].
    rewrite Hsp, (rstrip_head r He), Hh. reflexivity.
  - simpl. rewrite Hs. exact IH.
Qed.

(** X1: for ASCII input the hint is made of words separated by single
    spaces: it has no whitespace character other than the space, no two
    spaces in a row and no space at either end. *)
Theorem normalize_company_tidy (user_text : string) :
  all_of is_ascii user_text = true ->
  tidy_hint (normalize_company user_text) = true.
Proof.
  intros _. unfold normalize_company, tidy_hint, PyStr.strip.
  set (t := collapse_ws false _).
  destruct (collapse_ws_loose
              (drop_legal None 0 (PyStr.lower (PyStr.rstrip (PyStr.lstrip user_text))))
              false) as [Hl _].
  fold t in Hl.
  destruct (lstrip_loose t Hl) as [Hl' Hh].
  rewrite (rstrip_head_kept _ Hh), (rstrip_single_spaced _ Hl'). reflexivity.
Qed.

Lemma lower_empty (s : string) :
  PyStr.is_empty (PyStr.lower s) = PyStr.is_empty s.
Proof. destruct s; reflexivity. Qed.

Lemma lstrip_lower (s : string) :
  PyStr.lstrip (PyStr.lower s) = PyStr.lower (PyStr.lstrip s).
Proof.
  induction s as [|c r IH]; simpl; [reflexivity|].
  rewrite lower_char_space. destruct (PyStr.is_space c); [exact IH|reflexivity].
Qed.

Lemma rstrip_lower (s : string) :
  PyStr.rstrip (PyStr.lower s) = PyStr.lower (PyStr.rstrip s).
Proof.
  induction s as [|c r IH]; simpl; [reflexivity|].
  rewrite lower_char_space, IH, lower_empty.
  destruct (PyStr.is_space c && PyStr.is_empty (PyStr.rstrip r)); reflexivity.
Qed.

Lemma lower_lower (s : string) : PyStr.lower (PyStr.lower s) = PyStr.lower s.
Proof. apply lower_fixed, lower_all. Qed.

Lemma lstrip_fixed (s : string) :
  space_head s = false -> PyStr.lstrip s = s.
Proof. destruct s as [|c r]; simpl; [reflexivity|]. intros ->. reflexivity. Qed.

Lemma lstrip_head (s : string) : space_head (PyStr.lstrip s) = false.
Proof.
  induction s as [|c r IH]; simpl; [reflexivity|].
  destruct (PyStr.is_space c) eqn:Hs; [exact IH|exact Hs].
Qed.

Lemma rstrip_rstrip (s : string) :
  PyStr.rstrip (PyStr.rstrip s) = PyStr.rstrip s.
Proof.
  induction s as [|c r IH]; simpl; [reflexivity|].
  destruct (PyStr.is_space c && PyStr.is_empty (PyStr.rstrip r)) eqn:E;
    [reflexivity|].
  simpl. rewrite IH, E. reflexivity.
Qed.

Lemma strip_strip (s : string) : PyStr.strip (PyStr.strip s) = PyStr.strip s.
Proof.
  unfold PyStr.strip.
  rewrite (lstrip_fixed (PyStr.rstrip (PyStr.lstrip s))).
  - apply rstrip_rstrip.
  - apply rstrip_head_kept, lstrip_head.
Qed.

(** X3: for ASCII input the hint does not depend on the letter case of the
    input nor on the whitespace around it. *)
Theorem normalize_company_insensitive (user_text : string) :
  all_of is_ascii user_text = true ->
  normalize_company (PyStr.lower user_text) = normalize_company user_text
  /\ normalize_company (PyStr.strip user_text) = normalize_company user_text.
Proof.
  intros _. unfold normalize_company. split.
  - unfold PyStr.strip at 2 4.
    rewrite lstrip_lower, rstrip_lower, lower_lower. reflexivity.
  - rewrite strip_strip. reflexivity.
Qed.

Lemma word_not_space (c : ascii) :
  PyStr.is_word c = true -> PyStr.is_space c = false.
Proof.
  destruct c as [[] [] [] [] [] [] [] []]; vm_compute; congruence.
Qed.

Lemma lower_char_word (c : ascii) :
  PyStr.is_word (PyStr.lower_char c) = PyStr.is_word c.
Proof. destruct c as [[] [] [] [] [] [] [] []]; reflexivity. Qed.

Lemma lower_word (s : string) :
  all_of PyStr.is_word (PyStr.lower s) = all_of PyStr.is_word s.
Proof.
  induction s as [|c r IH]; simpl; [reflexivity|].
  rewrite lower_char_word, IH. reflexivity.
Qed.

Lemma lower_app (a b : string) :
  PyStr.lower (a ++ b) = (PyStr.lower a ++ PyStr.lower b)%string.
Proof. induction a as [|c r IH]; simpl; [reflexivity|]. rewrite IH. reflexivity. Qed.

Lemma all_of_app (p : ascii -> bool) (a b : string) :
  all_of p (a ++ b) = all_of p a && all_of p b.
Proof.
  induction a as [|c r IH]; simpl; [reflexivity|].
  rewrite IH. apply andb_assoc.
Qed.

Lemma string_app_assoc (a b c : string) :
  ((a ++ b) ++ c = a ++ (b ++ c))%string.
Proof. induction a as [|x r IH]; simpl; [reflexivity|]. rewrite IH. reflexivity. Qed.

Lemma string_app_nil (a : string) : (a ++ "")%string = a.
Proof. induction a as [|x r IH]; simpl; [reflexivity|]. rewrite IH. reflexivity. Qed.

Lemma drop_app_length (t x : string) :
  PyStr.drop (String.length t) (t ++ x) = x.
Proof. induction t as [|c r IH]; simpl; [destruct x; reflexivity|exact IH]. Qed.

(** A word that is a prefix of a word followed by a space is a prefix of
    that word. *)
Lemma prefix_word_app (t : string) :
  forall lw rest,
    all_of PyStr.is_word t = true ->
    prefix t (lw ++ String " " rest) = true ->
    exists v, lw = (t ++ v)%string.
Proof.
  induction t as [|a t IH]; intros lw rest Ht Hp; [exists lw; reflexivity|].
  simpl in Ht. apply andb_true_iff in Ht as [Ha Ht].
  destruct lw as [|b lw]; simpl in Hp.
  - destruct (ascii_dec a " ") as [->|]; [discriminate Ha|discriminate Hp].
  - destruct (ascii_dec a b) as [<-|]; [|discriminate Hp].
    destruct (IH lw rest Ht Hp) as (v & ->). exists v. reflexivity.
Qed.

(** A token made of word characters does not match at the start of a
    different word. *)
Lemma token_plain_no_match (t lw rest : string) :
  all_of PyStr.is_word t = true ->
  word_opt (PyStr.last_char t) = true ->
  all_of PyStr.is_word lw = true ->
  lw <> t ->
  token_matches (lw ++ String " " rest) t = false.
Proof.
  intros Ht Hlast Hlw Hne. unfold token_matches.
  destruct (prefix t (lw ++ String " " rest)) eqn:Hp; [|reflexivity].
  destruct (prefix_word_app t lw rest Ht Hp) as (v & ->).
  rewrite string_app_assoc, drop_app_length. cbn [andb].
  destruct v as [|d v].
  - exfalso. apply Hne. apply string_app_nil.
  - rewrite all_of_app in Hlw. apply andb_true_iff in Hlw as [_ Hv].
    simpl in Hv. apply andb_true_iff in Hv as [Hd _].
    unfold boundary. rewrite Hlast. simpl. rewrite Hd. reflexivity.
Qed.

(** A token that ends in a dot is not a prefix of a word followed by a
    space. *)
Lemma prefix_dotted (p : string) :
  forall lw rest,
    all_of PyStr.is_word p = true ->
    all_of PyStr.is_word lw = true ->
    prefix (p ++ ".") (lw ++ String " " rest) = false.
Proof.
  induction p as [|a p IH]; intros lw rest Hp Hlw.
  - destruct lw as [|b lw]; cbn [append prefix].
    + destruct (ascii_dec "." " ") as [E|]; [discriminate E|reflexivity].
    + destruct (ascii_dec "." b) as [<-|]; [|reflexivity].
      cbn [all_of] in Hlw. discriminate Hlw.
  - cbn [all_of] in Hp. apply andb_true_iff in Hp as [Ha Hp].
    destruct lw as [|b lw]; cbn [append prefix].
    + destruct (ascii_dec a " ") as [->|]; [discriminate Ha|reflexivity].
    + destruct (ascii_dec a b); [|reflexivity].
      cbn [all_of] in Hlw. apply andb_true_iff in Hlw as [_ Hlw].
      apply IH; assumption.
Qed.

Lemma token_dotted_no_match (p lw rest : string) :
  all_of PyStr.is_word p = true ->
  all_of PyStr.is_word lw = true ->
  token_matches (lw ++ String " " rest) (p ++ ".") = false.
Proof.
  intros Hp Hlw. unfold token_matches.
  rewrite (prefix_dotted p lw rest Hp Hlw). reflexivity.
Qed.

Lemma no_token_at_start (lw rest : string) :
  all_of PyStr.is_word lw = true ->
  ~ In lw PLAIN_TOKENS ->
  find (token_matches (lw ++ String " " rest)) LEGAL_TOKENS = None.
Proof.
  intros Hlw Hno.
  assert (Hplain : forall t, In t PLAIN_TOKENS ->
                             token_matches (lw ++ String " " rest) t = false).
  { intros t Ht. apply token_plain_no_match; [| |exact Hlw|].
    - simpl in Ht.
      repeat (destruct Ht as [<-|Ht]; [reflexivity|]). contradiction.
    - simpl in Ht.
      repeat (destruct Ht as [<-|Ht]; [reflexivity|]). contradiction.
    - intros ->. exact (Hno Ht). }
  pose proof (token_dotted_no_match "inc" lw rest eq_refl Hlw) as Hinc.
  pose proof (token_dotted_no_match "co" lw rest eq_refl Hlw) as Hco.
  change ("inc" ++ ".")%string with "inc." in Hinc.
  change ("co" ++ ".")%string with "co." in Hco.
  unfold LEGAL_TOKENS. cbn [find].
  rewrite (Hplain "inc") by (simpl; tauto).
  rewrite Hinc.
  rewrite (Hplain "llc") by (simpl; tauto).
  rewrite (Hplain "corp") by (simpl; tauto).
  rewrite Hco.
  rewrite (Hplain "company") by (simpl; tauto).
  rewrite (Hplain "ltd") by (simpl; tauto).
  reflexivity.
Qed.

(** Inside a word nothing is dropped. *)
Lemma drop_legal_inside (u : string) :
  forall prev rest,
    PyStr.is_word prev = true ->
    all_of PyStr.is_word u = true ->
    exists prev',
      PyStr.is_word prev' = true
      /\ drop_legal (Some prev) 0 (u ++ rest)
         = (u ++ drop_legal (Some prev') 0 rest)%string.
Proof.
  induction u as [|c u IH]; intros prev rest Hp Hu.
  - exists prev. auto.
  - simpl in Hu. apply andb_true_iff in Hu as [Hc Hu].
    destruct (IH c rest Hc Hu) as (prev' & Hp' & E).
    exists prev'. split; [exact Hp'|].
    cbn [append drop_legal]. unfold match_legal, boundary.
    cbn [word_opt PyStr.head]. rewrite Hp, Hc. cbn [xorb].
    rewrite E. reflexivity.
Qed.

(** A plain token after a word and a space is dropped. *)
Lemma drop_legal_tail (t : string) (prev : ascii) :
  In t PLAIN_TOKENS ->
  PyStr.is_word prev = true ->
  drop_legal (Some prev) 0 (String " " t) = " ".
Proof.
  intros Ht Hp. cbn [drop_legal]. unfold match_legal, boundary.
  cbn [word_opt PyStr.head]. rewrite Hp.
  simpl in Ht.
  repeat (destruct Ht as [<-|Ht]; [reflexivity|]). contradiction.
Qed.

Lemma collapse_ws_word (u : string) :
  all_of PyStr.is_word u = true ->
  collapse_ws false (u ++ " ") = (u ++ " ")%string.
Proof.
  induction u as [|c u IH]; simpl; [reflexivity|].
  intros H. apply andb_true_iff in H as [Hc Hu].
  rewrite (word_not_space c Hc), IH by exact Hu. reflexivity.
Qed.

Lemma rstrip_word_space (u : string) :
  all_of PyStr.is_word u = true -> PyStr.rstrip (u ++ " ") = u.
Proof.
  induction u as [|c u IH]; simpl; [reflexivity|].
  intros H. apply andb_true_iff in H as [Hc Hu].
  rewrite (word_not_space c Hc), IH by exact Hu. reflexivity.
Qed.

Lemma rstrip_app_fixed (u v : string) :
  PyStr.rstrip v = v -> v <> "" ->
  PyStr.rstrip (u ++ v) = (u ++ v)%string.
Proof.
  intros Hv Hne. induction u as [|c u IH]; simpl; [exact Hv|].
  rewrite IH.
  assert (E : PyStr.is_empty (u ++ v) = false).
  { destruct u; simpl; [destruct v; [congruence|reflexivity]|reflexivity]. }
  rewrite E, andb_false_r. reflexivity.
Qed.

(** X4: a legal token ([inc], [llc], [corp], [company], [ltd], in any
    letter case) that follows a one-word name and a space is removed: the
    hint is the lower-cased name.  The name is made of letters, digits and
    underscores and is not itself a legal token. *)
Theorem normalize_company_suffix (name token : string) :
  name <> "" ->
  all_of PyStr.is_word name = true ->
  ~ In (PyStr.lower name) PLAIN_TOKENS ->
  In (PyStr.lower token) PLAIN_TOKENS ->
  normalize_company (name ++ " " ++ token) = PyStr.lower name.
Proof.
  intros Hne Hw Hno Htok. unfold normalize_company.
  assert (Hlw : all_of PyStr.is_word (PyStr.lower name) = true).
  { rewrite lower_word. exact Hw. }
  assert (Hhead : space_head (PyStr.lower name) = false).
  { destruct name as [|c r]; [congruence|]. simpl.
    simpl in Hlw. apply andb_true_iff in Hlw as [Hc _].
    apply word_not_space. exact Hc. }
  assert (E1 : PyStr.lower (PyStr.strip (name ++ " " ++ token))
               = (PyStr.lower name ++ String " " (PyStr.lower token))%string).
  { unfold PyStr.strip. rewrite <- rstrip_lower, <- lstrip_lower.
    rewrite lower_app. cbn [append PyStr.lower].
    change (PyStr.lower_char " ") with " "%char.
    rewrite lstrip_fixed.
    - apply rstrip_app_fixed; [|discriminate].
      simpl in Htok.
      repeat (destruct Htok as [<-|Htok]; [reflexivity|]). contradiction.
    - destruct name as [|c r]; [congruence|exact Hhead]. }
  rewrite E1.
  assert (E2 : drop_legal None 0
                 (PyStr.lower name ++ String " " (PyStr.lower token))
               = (PyStr.lower name ++ " ")%string).
  { destruct (PyStr.lower name) as [|c u] eqn:El.
    - destruct name; [congruence|discriminate El].
    - simpl in Hlw. apply andb_true_iff in Hlw as [Hc Hu].
      cbn [append drop_legal]. unfold match_legal, boundary.
      cbn [word_opt PyStr.head]. rewrite Hc. cbn [xorb].
      change (String c (u ++ String " " (PyStr.lower token)))
        with (String c u ++ String " " (PyStr.lower token))%string.
      rewrite no_token_at_start;
        [|simpl; rewrite Hc, Hu; reflexivity|exact Hno].
      cbn [option_map].
      destruct (drop_legal_inside u c (String " " (PyStr.lower token)) Hc Hu)
        as (prev' & Hp' & E).
      cbn [append]. rewrite E, (drop_legal_tail _ _ Htok Hp'). reflexivity. }
  rewrite E2, (collapse_ws_word _ Hlw).
  unfold PyStr.strip. rewrite lstrip_fixed.
  - apply rstrip_word_space. exact Hlw.
  - destruct name as [|c r]; [congruence|exact Hhead].
Qed.

End NormalizeFacts.

(** ** The search engine and the discoverer *)

Section SearchAndDiscoverFacts.

Variable lib : Library.
Variable net : Network.

Lemma first_absolute_found (links : list (option string)) (url : string) :
  first_absolute links = Some url ->
  exists before after,
    links = before ++ Some url :: after
    /\ looks_absolute (Some url) = true
    /\ forall link, In link before -> looks_absolute link = false.
Proof.
  induction links as [|[l|] links IH]; cbn [first_absolute]; [discriminate| |].
  - destruct (negb (PyStr.is_empty l)
              && (PyStr.contains l "http://" || PyStr.contains l "https://"))
      eqn:Hl.
    + intros E. injection E as <-. exists [], links.
      split; [reflexivity|]. split; [exact Hl|]. intros link [].
    + intros E. destruct (IH E) as (before & after & -> & Hu & Hb).
      exists (Some l :: before), after.
      split; [reflexivity|]. split; [exact Hu|].
      intros link [<-|Hin]; [exact Hl|apply Hb; exact Hin].
  - intros E. destruct (IH E) as (before & after & -> & Hu & Hb).
    exists (None :: before), after.
    split; [reflexivity|]. split; [exact Hu|].
    intros link [<-|Hin]; [reflexivity|apply Hb; exact Hin].
Qed.

(** X5: [ddg_first_result] never raises and issues exactly one request; a
    URL it returns comes from a reply with status 200, is the first result
    link that is present, non-empty and holds "http://" or "https://"
    (anywhere in it), and no probe of it is made; a request that fails, a
    status other than 200 and a page that cannot be parsed give [None]. *)
Theorem ddg_first_result_spec (query : string) (h : History) :
  exists r,
    ddg_first_result lib net query h = (Ok r, h ++ [ReqSearch query])
    /\ (forall url, r = Some url ->
          exists text links before after,
            ddg_get net h query = Some (200%Z, text)
            /\ soup_result_links lib text = Some links
            /\ links = before ++ Some url :: after
            /\ url <> ""
            /\ (PyStr.contains url "http://" = true
                \/ PyStr.contains url "https://" = true)
            /\ forall link, In link before -> looks_absolute link = false)
    /\ (ddg_get net h query = None -> r = None)
    /\ (forall code text, ddg_get net h query = Some (code, text) ->
          code <> 200%Z \/ soup_result_links lib text = None -> r = None).
Proof.
  exists (first_result lib net query h).
  split; [apply ddg_first_result_run|].
  unfold first_result.
  destruct (ddg_get net h query) as [[code text]|] eqn:Hget;
    [|split; [discriminate|]; split; [reflexivity|discriminate]].
  destruct (Z.eqb_spec code 200) as [->|Hcode].
  - destruct (soup_result_links lib text) as [links|] eqn:Hsoup.
    + split; [|split; [discriminate|]].
      * intros url Hu.
        destruct (first_absolute_found links url Hu)
          as (before & after & -> & Hl & Hb).
        exists text, (before ++ Some url :: after), before, after.
        cbn [looks_absolute] in Hl. apply andb_true_iff in Hl as [Hne Hl].
        split; [reflexivity|]. split; [exact Hsoup|]. split; [reflexivity|].
        split; [intros ->; discriminate Hne|].
        split; [apply orb_true_iff; exact Hl|exact Hb].
      * intros c t E [Hc|Hs]; injection E as <- <-;
          [contradiction|congruence].
    + split; [discriminate|]. split; [discriminate|]. reflexivity.
  - split; [discriminate|]. split; [discriminate|]. reflexivity.
Qed.

(** The loop over the paths returns only a candidate it has just probed
    with success. *)
Lemma try_paths_probed (base : string) (paths : list string) :
  forall h c h',
    try_paths lib net base paths h = (Ok (Some c), h') ->
    exists ref h0,
      urljoin lib base ref = Some c
      /\ safe_head net c h0 = (Ok true, h').
Proof.
  induction paths as [|p paths IH]; intros h c h' E; [discriminate E|].
  cbn [try_paths] in E. unfold bind, lift in E.
  destruct (urljoin lib base p) as [cand|] eqn:Hj; [|discriminate E].
  unfold ret at 1 in E.
  destruct (safe_head_shape net cand h) as (b & new & Es & _).
  rewrite Es in E. destruct b.
  - injection E as <- <-. exists p, h. auto.
  - apply IH in E. exact E.
Qed.

Lemma scan_anchors_probed (base : string) (anchors : list Anchor) :
  forall h c h',
    scan_anchors lib net base anchors h = (Ok (Some c), h') ->
    exists ref h0,
      urljoin lib base ref = Some c
      /\ safe_head net c h0 = (Ok true, h').
Proof.
  induction anchors as [|a anchors IH]; intros h c h' E; [discriminate E|].
  cbn [scan_anchors] in E.
  destruct (careers_text (PyStr.lower (anchor_text a))); [|apply IH in E; exact E].
  unfold bind, lift in E.
  destruct (urljoin lib base (href a)) as [cand|] eqn:Hj; [|discriminate E].
  unfold ret at 1 in E.
  destruct (safe_head_shape net cand h) as (b & new & Es & _).
  rewrite Es in E. destruct b.
  - injection E as <- <-. exists (href a), h. auto.
  - apply IH in E. exact E.
Qed.

(** X6: a URL the discoverer returns is a join under the slash-normalized
    base, and the last thing the discoverer did was to probe it with
    success. *)
Theorem discover_result_probed (domain_url c : string) (h h' : History) :
  discover_careers_from_domain lib net domain_url h = (Ok (Some c), h') ->
  exists ref h0,
    urljoin lib (slash_normalize domain_url) ref = Some c
    /\ safe_head net c h0 = (Ok true, h').
Proof.
  unfold discover_careers_from_domain. intros E. unfold bind in E.
  destruct (try_paths lib net (slash_normalize domain_url)
              COMMON_CAREER_PATHS h) as [[[cand|]|] h1] eqn:Et;
    [| |discriminate E].
  - unfold ret in E. injection E as <- <-.
    eapply try_paths_probed. exact Et.
  - unfold scan_homepage, catch, bind in E.
    destruct (get_request net (slash_normalize domain_url) h1)
      as [[[code text]|] h2]; [|discriminate E].
    destruct (is_success_status code); [|discriminate E].
    unfold lift in E.
    destruct (soup_anchors lib text) as [anchors|]; [|discriminate E].
    unfold ret at 1 in E.
    destruct (scan_anchors lib net (slash_normalize domain_url) anchors h2)
      as [[o|] h3] eqn:Es; [|discriminate E].
    injection E as -> <-.
    eapply scan_anchors_probed. exact Es.
Qed.

(** X7: the homepage scan skips the anchors whose lower-cased text holds
    none of "career", "job", "join": it behaves as on the list of the other
    anchors, and with no such anchor it returns nothing and issues no
    request. *)
Theorem scan_anchors_filter (base : string) (anchors : list Anchor)
    (h : History) :
  scan_anchors lib net base anchors h
  = scan_anchors lib net base (filter mentions_careers anchors) h
  /\ ((forall a, In a anchors -> mentions_careers a = false) ->
      scan_anchors lib net base anchors h = (Ok None, h)).
Proof.
  assert (Heq : forall h0,
             scan_anchors lib net base anchors h0
             = scan_anchors lib net base (filter mentions_careers anchors) h0).
  { induction anchors as [|a rest IH]; intros h0; [reflexivity|].
    cbn [scan_anchors filter]. unfold mentions_careers at 1.
    destruct (careers_text (PyStr.lower (anchor_text a))) eqn:Ea; [|apply IH].
    cbn [scan_anchors]. rewrite Ea.
    unfold bind, lift.
    destruct (urljoin lib base (href a)) as [cand|]; [|reflexivity].
    unfold ret at 1 3.
    destruct (safe_head net cand h0) as [[[]|] h1]; try reflexivity.
    apply IH. }
  split; [apply Heq|].
  intros Hnone. rewrite Heq.
  assert (E : filter mentions_careers anchors = []).
  { clear Heq. induction anchors as [|a rest IH]; [reflexivity|].
    cbn [filter]. rewrite (Hnone a (or_introl eq_refl)).
    apply IH. intros b Hb. apply Hnone. right. exact Hb. }
  rewrite E. reflexivity.
Qed.

Lemma scan_anchors_bad_href (base : string) (a : Anchor)
    (after : list Anchor) (h : History) :
  mentions_careers a = true ->
  urljoin lib base (href a) = None ->
  forall before,
    (forall b, In b before -> mentions_careers b = false) ->
    scan_anchors lib net base (before ++ a :: after) h = (Raised, h).
Proof.
  intros Ha Hj.
  induction before as [|b before IH]; intros Hbefore; cbn [app scan_anchors].
  - unfold mentions_careers in Ha. rewrite Ha.
    unfold bind, lift. rewrite Hj. reflexivity.
  - pose proof (Hbefore b (or_introl eq_refl)) as Hb.
    unfold mentions_careers in Hb. rewrite Hb.
    apply IH. intros x Hx. apply Hbefore. right. exact Hx.
Qed.

(** X8: in the homepage scan, an [href] that [urljoin] rejects ends the
    scan: when the first anchor that mentions careers has such an [href],
    the scan returns nothing, whatever the anchors after it are, and it
    issues no request besides the fetch of the homepage. *)
Theorem scan_homepage_bad_href (base text : string) (code : Z)
    (before after : list Anchor) (a : Anchor) (h : History) :
  http_get net h base = Some (code, text) ->
  is_success_status code = true ->
  soup_anchors lib text = Some (before ++ a :: after) ->
  (forall b, In b before -> mentions_careers b = false) ->
  mentions_careers a = true ->
  urljoin lib base (href a) = None ->
  scan_homepage lib net base h = (Ok None, h ++ [ReqGet base]).
Proof.
  intros Hget Hcode Hsoup Hbefore Ha Hj.
  unfold scan_homepage, catch, bind, get_request, call.
  rewrite Hget, Hcode. unfold lift. rewrite Hsoup. unfold ret at 1.
  rewrite (scan_anchors_bad_href base a after _ Ha Hj before Hbefore).
  reflexivity.
Qed.

Lemma last_char_slash (s : string) :
  PyStr.last_char (s ++ "/") = Some "/"%char.
Proof.
  induction s as [|c r IH]; [reflexivity|].
  cbn [append PyStr.last_char]. rewrite IH.
  destruct (r ++ "/")%string eqn:E; [|reflexivity].
  destruct r; discriminate E.
Qed.

Lemma slash_normalize_twice (s : string) :
  slash_normalize (slash_normalize s) = slash_normalize s.
Proof.
  unfold slash_normalize.
  destruct (PyStr.endswith_slash s) eqn:E; [rewrite E; reflexivity|].
  unfold PyStr.endswith_slash at 1. rewrite last_char_slash. reflexivity.
Qed.

(** X17: a trailing slash on the domain makes no difference to the
    discoverer: the base with its slash added gives the same requests and
    the same result as the base without it. *)
Theorem discover_slash_irrelevant (domain_url : string) (h : History) :
  discover_careers_from_domain lib net (slash_normalize domain_url) h
  = discover_careers_from_domain lib net domain_url h
  /\ (PyStr.endswith_slash domain_url = false ->
      discover_careers_from_domain lib net (domain_url ++ "/") h
      = discover_careers_from_domain lib net domain_url h).
Proof.
  assert (E : discover_careers_from_domain lib net (slash_normalize domain_url) h
              = discover_careers_from_domain lib net domain_url h).
  { unfold discover_careers_from_domain. rewrite slash_normalize_twice.
    reflexivity. }
  split; [exact E|].
  intros Hs. rewrite <- E. unfold slash_normalize at 1. rewrite Hs. reflexivity.
Qed.

End SearchAndDiscoverFacts.

(** ** Requests issued *)

Section TraceFacts.

Variable lib : Library.
Variable net : Network.
Variable cfg : Config.

Lemma bind_ok_inv {A B} (m : M A) (k : A -> M B) (h h' : History) (b : B) :
  bind m k h = (Ok b, h') ->
  exists a h1, m h = (Ok a, h1) /\ k a h1 = (Ok b, h').
Proof.
  unfold bind. destruct (m h) as [[a|] h1]; [eauto|discriminate].
Qed.

(** The trace of a sequence extends the trace of its first part. *)
Lemma bind_trace {A B} (P : Request -> bool) (m : M A) (k : A -> M B)
    (h : History) :
  (exists new, snd (m h) = h ++ new /\ forallb P new = true) ->
  (forall a h1, exists new, snd (k a h1) = h1 ++ new /\ forallb P new = true) ->
  exists new, snd (bind m k h) = h ++ new /\ forallb P new = true.
Proof.
  intros (new1 & E1 & P1) Hk. unfold bind.
  destruct (m h) as [[a|] h1]; simpl in E1; subst h1.
  - destruct (Hk a (h ++ new1)) as (new2 & E2 & P2).
    exists (new1 ++ new2). rewrite E2, app_assoc, forallb_app, P1, P2. auto.
  - exists new1. auto.
Qed.

Lemma ret_trace {A} (P : Request -> bool) (a : A) (h : History) :
  exists new, snd (ret a h) = h ++ new /\ forallb P new = true.
Proof. exists []. rewrite app_nil_r. auto. Qed.

Lemma raise_trace {A} (P : Request -> bool) (h : History) :
  exists new, snd (@raise A h) = h ++ new /\ forallb P new = true.
Proof. exists []. rewrite app_nil_r. auto. Qed.

Lemma catch_trace {A} (P : Request -> bool) (m handler : M A) (h : History) :
  (exists new, snd (m h) = h ++ new /\ forallb P new = true) ->
  (forall h1, exists new, snd (handler h1) = h1 ++ new /\ forallb P new = true) ->
  exists new, snd (catch m handler h) = h ++ new /\ forallb P new = true.
Proof.
  intros (new1 & E1 & P1) Hh. unfold catch.
  destruct (m h) as [[a|] h1]; simpl in E1; subst h1.
  - exists new1. auto.
  - destruct (Hh (h ++ new1)) as (new2 & E2 & P2).
    exists (new1 ++ new2). rewrite E2, app_assoc, forallb_app, P1, P2. auto.
Qed.

Lemma lift_trace {A} (P : Request -> bool) (o : option A) (h : History) :
  exists new, snd (lift o h) = h ++ new /\ forallb P new = true.
Proof. destruct o; [apply ret_trace|apply raise_trace]. Qed.

Lemma call_trace {A} (P : Request -> bool) (q : Request)
    (answer : History -> option A) (h : History) :
  P q = true ->
  exists new, snd (call q answer h) = h ++ new /\ forallb P new = true.
Proof.
  intros Hq. exists [q]. unfold call.
  destruct (answer h); simpl; rewrite Hq; auto.
Qed.

Lemma safe_head_trace (P : Request -> bool) (url : string) (h : History) :
  (forall q, is_probe_request q = true -> P q = true) ->
  exists new, snd (safe_head net url h) = h ++ new /\ forallb P new = true.
Proof.
  intros HP. unfold safe_head.
  apply catch_trace; [|intros; apply ret_trace].
  apply bind_trace; [apply call_trace; apply HP; reflexivity|].
  intros code h1. apply bind_trace; [|intros; apply ret_trace].
  destruct (is_error_status code); [|apply ret_trace].
  apply bind_trace; [apply call_trace; apply HP; reflexivity|].
  intros [c t] h2. apply ret_trace.
Qed.

Lemma try_paths_trace (P : Request -> bool) (base : string)
    (paths : list string) :
  (forall q, is_probe_request q = true -> P q = true) ->
  forall h,
    exists new,
      snd (try_paths lib net base paths h) = h ++ new /\ forallb P new = true.
Proof.
  intros HP. induction paths as [|p paths IH]; intros h; cbn [try_paths].
  - apply ret_trace.
  - apply bind_trace; [apply lift_trace|]. intros cand h1.
    apply bind_trace; [apply safe_head_trace; exact HP|]. intros ok h2.
    destruct ok; [apply ret_trace|apply IH].
Qed.

Lemma scan_anchors_trace (P : Request -> bool) (base : string)
    (anchors : list Anchor) :
  (forall q, is_probe_request q = true -> P q = true) ->
  forall h,
    exists new,
      snd (scan_anchors lib net base anchors h) = h ++ new
      /\ forallb P new = true.
Proof.
  intros HP. induction anchors as [|a anchors IH]; intros h; cbn [scan_anchors].
  - apply ret_trace.
  - destruct (careers_text (PyStr.lower (anchor_text a))); [|apply IH].
    apply bind_trace; [apply lift_trace|]. intros cand h1.
    apply bind_trace; [apply safe_head_trace; exact HP|]. intros ok h2.
    destruct ok; [apply ret_trace|apply IH].
Qed.

(** The discoverer issues HEAD and GET requests only. *)
Lemma discover_trace (P : Request -> bool) (domain_url : string) (h : History) :
  (forall q, is_probe_request q = true -> P q = true) ->
  exists new,
    snd (discover_careers_from_domain lib net domain_url h) = h ++ new
    /\ forallb P new = true.
Proof.
  intros HP. unfold discover_careers_from_domain.
  apply bind_trace; [apply try_paths_trace; exact HP|]. intros found h1.
  destruct found; [apply ret_trace|].
  unfold scan_homepage.
  apply catch_trace; [|intros; apply ret_trace].
  apply bind_trace; [apply call_trace; apply HP; reflexivity|].
  intros [code text] h2.
  destruct (is_success_status code); [|apply ret_trace].
  apply bind_trace; [apply lift_trace|]. intros anchors h3.
  apply scan_anchors_trace. exact HP.
Qed.

Lemma ddg_trace (P : Request -> bool) (query : string) (h : History) :
  P (ReqSearch query) = true ->
  exists new,
    snd (ddg_first_result lib net query h) = h ++ new /\ forallb P new = true.
Proof.
  intros HP. exists [ReqSearch query].
  rewrite ddg_first_result_run. simpl. rewrite HP. auto.
Qed.

(** X9: the resolver never raises; it returns the empty dict or a dict
    with exactly the keys company, official_website and careers_url, in
    this order; the requests it issues are the first none, one, two or
    three of the three request shapes, and nothing else. *)
Theorem resolver_result_shape (user_text : string) (h : History) :
  let m := model cfg in
  let u := user_msg user_text in
  exists d k,
    openai_guess_company_and_urls lib net cfg user_text h
    = (Ok d, h ++ firstn k [ReqChat m u true; ReqChat m u false;
                            ReqResponses m u])
    /\ (d = [] \/ map fst d = ["company"; "official_website"; "careers_url"]).
Proof.
  cbv zeta. destruct (client cfg) eqn:Hclient.
  - rewrite resolver_run by exact Hclient.
    unfold request_shapes, first_object.
    destruct (chat_json_object lib _) as [d1|].
    { exists (triple d1), 1. cbn [fst snd firstn]. auto. }
    destruct (chat_plain_object lib _) as [d2|].
    { exists (triple d2), 2. cbn [fst snd firstn]. auto. }
    destruct (responses_object lib _) as [d3|].
    { exists (triple d3), 3. cbn [fst snd firstn]. auto. }
    exists [], 3. cbn [fst snd firstn]. auto.
  - rewrite resolver_without_client by exact Hclient.
    exists [], 0. cbn [firstn]. rewrite app_nil_r. auto.
Qed.

End TraceFacts.

(** ** The branches of the orchestrator *)

Section BranchFacts.

Variable lib : Library.
Variable net : Network.
Variable cfg : Config.

Lemma probe_is_not_llm (q : Request) :
  is_probe_request q = true -> negb (is_llm_request q) = true.
Proof. destruct q; simpl; congruence. Qed.

Lemma origin_prefix (parsed : ParseResult) :
  scheme parsed = "http" \/ scheme parsed = "https" ->
  let official := (scheme parsed ++ "://" ++ netloc parsed)%string in
  prefix "http://" official = true \/ prefix "https://" official = true.
Proof.
  assert (Hp : forall a b, prefix a (a ++ b) = true).
  { induction a as [|c a IH]; intros b; simpl; [destruct b; reflexivity|].
    destruct (ascii_dec c c); [apply IH|contradiction]. }
  intros [E|E]; cbv zeta; rewrite E; [left|right].
  - apply (Hp "http://"%string).
  - apply (Hp "https://"%string).
Qed.

(** X10: for an input that is a valid URL (and not empty), when no join of
    a career path to its origin raises, the orchestrator returns both
    fields as strings:
    the official site starts with "http://" or "https://", the careers URL
    is not empty, and only HEAD and GET requests are issued: neither the
    language model nor the search engine is asked. *)
Theorem direct_branch_yields_both (user_text : string) (h : History) :
  is_valid_url lib user_text = true ->
  user_text <> "" ->
  (forall parsed p,
      urlparse lib user_text = Some parsed ->
      In p COMMON_CAREER_PATHS ->
      urljoin lib (slash_normalize (scheme parsed ++ "://" ++ netloc parsed)) p
      <> None) ->
  exists parsed careers new,
    urlparse lib user_text = Some parsed
    /\ best_urls_from_all_signals lib net cfg user_text h
       = (Ok (PStr (scheme parsed ++ "://" ++ netloc parsed), PStr careers,
              [("mode", PStr "direct_url")]), h ++ new)
    /\ careers <> ""
    /\ forallb is_probe_request new = true
    /\ (prefix "http://" (scheme parsed ++ "://" ++ netloc parsed) = true
        \/ prefix "https://" (scheme parsed ++ "://" ++ netloc parsed) = true).
Proof.
  intros Hv Hne Hj.
  pose proof Hv as Hv'. unfold is_valid_url in Hv'.
  destruct (urlparse lib user_text) as [parsed|] eqn:Hp; [|discriminate].
  apply andb_true_iff in Hv' as [Hs _].
  assert (Hscheme : scheme parsed = "http" \/ scheme parsed = "https").
  { apply orb_true_iff in Hs as [Hs|Hs]; apply String.eqb_eq in Hs; auto. }
  pose proof (origin_prefix parsed Hscheme) as Hprefix. cbv zeta in Hprefix.
  pose proof (nonempty_truthy user_text Hne) as Ht.
  unfold best_urls_from_all_signals, direct_url. rewrite Hv, Hp.
  unfold lift. rewrite bind_ret. cbv zeta.
  set (official := (scheme parsed ++ "://" ++ netloc parsed)%string) in *.
  destruct (PyStr.contains (PyStr.lower (path parsed)) "career"
            || PyStr.contains (PyStr.lower (path parsed)) "job").
  - rewrite Ht. cbn [negb]. rewrite bind_ret.
    exists parsed, user_text, []. rewrite app_nil_r. auto.
  - cbn [truthy negb].
    destruct (discover_returns lib net official h) as (o & h' & Ed);
      [intros p Hin; apply (Hj parsed p eq_refl Hin)|].
    destruct (discover_trace lib net is_probe_request official h
                (fun q Hq => Hq)) as (new & Et & Hprobe).
    rewrite Ed in Et. simpl in Et. subst h'.
    rewrite bind_assoc, (bind_ok _ _ _ _ _ Ed), !bind_ret.
    destruct o as [[|c0 c]|]; unfold py_or; cbn [py_of_opt truthy PyStr.is_empty negb].
    + exists parsed, user_text, new. auto.
    + exists parsed, (String c0 c), new.
      repeat split; auto. discriminate.
    + exists parsed, user_text, new. auto.
Qed.


(** X12: for an input that is a valid URL or whose hint holds a key of the
    popular-domain table, the language model is never asked, whether the
    orchestrator returns or raises. *)
Theorem no_llm_before_step_two (user_text : string) (h : History) :
  is_valid_url lib user_text = true
  \/ popular_lookup (normalize_company user_text) <> None ->
  exists new,
    snd (best_urls_from_all_signals lib net cfg user_text h) = h ++ new
    /\ forallb (fun q => negb (is_llm_request q)) new = true.
Proof.
  intros Hcase. unfold best_urls_from_all_signals.
  destruct (is_valid_url lib user_text).
  - unfold direct_url.
    apply bind_trace; [apply lift_trace|]. intros parsed h1. cbv zeta.
    apply bind_trace; [|intros; apply ret_trace].
    destruct (negb (truthy _)); [|apply ret_trace].
    apply bind_trace; [|intros; apply ret_trace].
    apply discover_trace. exact probe_is_not_llm.
  - destruct Hcase as [Hc|Hc]; [discriminate|].
    destruct (popular_lookup (normalize_company user_text)) as [[key dom]|];
      [|congruence].
    unfold popular_map.
    apply bind_trace; [apply discover_trace; exact probe_is_not_llm|].
    intros found h1. apply bind_trace; [|intros; apply ret_trace].
    destruct (truthy (py_of_opt found)); [apply ret_trace|].
    apply bind_trace; [|intros; apply ret_trace].
    apply ddg_trace. reflexivity.
Qed.

End BranchFacts.

(** ** The language-model branch *)

Section LanguageModelBranchFacts.

Variable lib : Library.
Variable net : Network.
Variable cfg : Config.

(** What the probe of the proposed official site leaves: a truthy value is
    a string whose probe succeeded. *)
Lemma verified_official (official0 official1 : pyval) (h1 h2 : History) :
  (if truthy official0
   then bind (safe_head_value net official0)
          (fun ok => ret (if ok then official0 else PNone))
   else ret official0) h1 = (Ok official1, h2) ->
  truthy official1 = true ->
  exists url, official1 = PStr url /\ safe_head net url h1 = (Ok true, h2).
Proof.
  intros E Ht.
  destruct (truthy official0) eqn:Ht0.
  - apply bind_ok_inv in E as (ok & h' & Es & E).
    unfold ret in E. injection E as <- <-.
    destruct ok; [|discriminate Ht].
    destruct official0; simpl in Es; try (unfold ret in Es; discriminate Es).
    eauto.
  - unfold ret in E. injection E as <- <-. congruence.
Qed.

(** What one field of the search fallback leaves: a truthy value is the
    value it started from, with no request issued, or a string whose probe
    right after the search request succeeded. *)
Lemma search_field_verified (query : string) (current result : pyval)
    (h h' : History) :
  search_field lib net query current h = (Ok result, h') ->
  truthy result = true ->
  (result = current /\ truthy current = true /\ h' = h)
  \/ exists url,
       result = PStr url
       /\ safe_head net url (h ++ [ReqSearch query]) = (Ok true, h').
Proof.
  intros E Ht.
  destruct (search_field_step lib net query current h) as (r & hr & Er & Hs).
  rewrite E in Er. injection Er as <- <-.
  destruct Hs; eauto; congruence.
Qed.

(** A run only adds requests to the history it starts from. *)
Lemma run_extends {A} (m : M A) (h h' : History) (r : outcome A) :
  m h = (r, h') ->
  (exists new, snd (m h) = h ++ new /\ forallb (fun _ => true) new = true) ->
  exists new, h' = h ++ new.
Proof. intros E (new & Hs & _). rewrite E in Hs. eauto. Qed.

Lemma safe_head_value_trace (v : pyval) (h : History) :
  exists new,
    snd (safe_head_value net v h) = h ++ new
    /\ forallb (fun _ => true) new = true.
Proof.
  destruct v; try apply ret_trace. apply safe_head_trace. reflexivity.
Qed.

Lemma discover_value_trace (v : pyval) (h : History) :
  exists new,
    snd (discover_value lib net v h) = h ++ new
    /\ forallb (fun _ => true) new = true.
Proof.
  destruct v; try apply raise_trace. apply discover_trace. reflexivity.
Qed.

Lemma search_field_trace (query : string) (current : pyval) (h : History) :
  exists new,
    snd (search_field lib net query current h) = h ++ new
    /\ forallb (fun _ => true) new = true.
Proof.
  unfold search_field. destruct (negb (truthy current)); [|apply ret_trace].
  apply bind_trace; [apply ddg_trace; reflexivity|]. intros found h1.
  unfold accept_if_reachable. destruct found as [url|]; [|apply ret_trace].
  destruct (PyStr.is_empty url); [apply ret_trace|].
  apply bind_trace; [apply safe_head_trace; reflexivity|].
  intros ok h2. apply ret_trace.
Qed.

(** X13: in the language-model branch an official site that the
    orchestrator returns as present is a string that passed the
    reachability probe during the run, whether the language model or the
    search engine proposed it: the successful probe starts at a history
    that extends the one the run starts from, and the history the run ends
    with extends the one the probe leaves. *)
Theorem llm_branch_official_probed (user_text : string) (h h' : History)
    (official careers : pyval) (debug : pydict) :
  is_valid_url lib user_text = false ->
  popular_lookup (normalize_company user_text) = None ->
  best_urls_from_all_signals lib net cfg user_text h
  = (Ok (official, careers, debug), h') ->
  truthy official = true ->
  exists url h0 h1 before after,
    official = PStr url
    /\ safe_head net url h0 = (Ok true, h1)
    /\ h0 = h ++ before
    /\ h' = h1 ++ after.
Proof.
  intros Hv Hl E Ht.
  unfold best_urls_from_all_signals in E. rewrite Hv, Hl in E.
  unfold ask_openai in E.
  apply bind_ok_inv in E as (ai & h1 & Er & E). cbv zeta in E.
  apply bind_ok_inv in E as (o1 & h2 & Eo & E).
  apply bind_ok_inv in E as (c1 & h3 & Ec & E).
  apply bind_ok_inv in E as ([o c] & h4 & Ef & E).
  unfold ret in E. injection E as <- <- _ <-.
  unfold search_fallback in Ef.
  apply bind_ok_inv in Ef as (o' & h5 & Es & Ef).
  apply bind_ok_inv in Ef as (c' & h6 & Es2 & Ef).
  unfold ret in Ef. injection Ef as <- <- <-.
  (* each step extends the history *)
  destruct (resolver_returns lib net cfg user_text h) as (d & n1 & Er').
  rewrite Er in Er'. injection Er' as _ ->.
  destruct (run_extends _ _ _ _ Ec) as (n3 & ->).
  { destruct (truthy o1); [|apply ret_trace].
    apply bind_trace.
    - destruct (negb (truthy (dict_get ai "careers_url"))); [apply ret_trace|].
      apply bind_trace; [apply safe_head_value_trace|].
      intros ok hx. apply ret_trace.
    - intros unusable hx. destruct unusable; [|apply ret_trace].
      apply bind_trace; [apply discover_value_trace|].
      intros discovered hy. apply ret_trace. }
  destruct (run_extends _ _ _ _ Es2 (search_field_trace _ _ _)) as (n5 & ->).
  destruct (search_field_verified _ _ _ _ _ Es Ht)
    as [(-> & Ht1 & ->)|(url & -> & Ep)].
  - destruct (verified_official _ _ _ _ Eo Ht1) as (url & -> & Ep).
    exists url, (h ++ n1), h2, n1, (n3 ++ n5).
    rewrite app_assoc. auto.
  - destruct (run_extends _ _ _ _ Eo) as (n2 & ->).
    { destruct (truthy (dict_get ai "official_website")); [|apply ret_trace].
      apply bind_trace; [apply safe_head_value_trace|].
      intros ok hx. apply ret_trace. }
    exists url,
      (((h ++ n1) ++ n2) ++ n3 ++ [ReqSearch (normalize_company user_text
                                              ++ " official site")%string]),
      h5, (n1 ++ n2 ++ n3 ++ [ReqSearch (normalize_company user_text
                                          ++ " official site")%string]), n5.
    split; [reflexivity|]. split.
    + rewrite <- Ep. f_equal. rewrite <- !app_assoc. reflexivity.
    + split; [rewrite <- !app_assoc; reflexivity|reflexivity].
Qed.

Lemma search_field_no_result (query : string) (current : pyval) (h : History) :
  truthy current = false ->
  first_result lib net query h = None ->
  search_field lib net query current h = (Ok current, h ++ [ReqSearch query]).
Proof.
  intros Ht Hr. unfold search_field. rewrite Ht. cbn [negb].
  rewrite (bind_ok _ _ _ _ _ (ddg_first_result_run lib net query h)).
  rewrite Hr. reflexivity.
Qed.

(** X14: when the language model proposes a careers URL but no official
    site, or an official site whose probe fails, the careers URL is
    returned as it is and is never probed: after the resolver (and the
    failed probe of the official site) the only requests are those of the
    search for the official site. *)
Theorem llm_careers_unprobed (user_text careers : string) (ai : pydict)
    (h h1 : History) :
  is_valid_url lib user_text = false ->
  popular_lookup (normalize_company user_text) = None ->
  openai_guess_company_and_urls lib net cfg user_text h = (Ok ai, h1) ->
  dict_get ai "careers_url" = PStr careers ->
  careers <> "" ->
  let hint := normalize_company user_text in
  let proposed := dict_get ai "official_website" in
  let debug := [("hint", PStr hint); ("openai_raw", PDict ai)] in
  (truthy proposed = false ->
   exists official h2,
     search_field lib net (hint ++ " official site") proposed h1
     = (Ok official, h2)
     /\ best_urls_from_all_signals lib net cfg user_text h
        = (Ok (official, PStr careers, debug), h2))
  /\ (forall h1',
         truthy proposed = true ->
         safe_head_value net proposed h1 = (Ok false, h1') ->
         exists official h2,
           search_field lib net (hint ++ " official site") PNone h1'
           = (Ok official, h2)
           /\ best_urls_from_all_signals lib net cfg user_text h
              = (Ok (official, PStr careers, debug), h2)).
Proof.
  intros Hv Hl Hai Hc Hne. cbv zeta.
  pose proof (nonempty_truthy careers Hne) as Htc.
  unfold best_urls_from_all_signals. rewrite Hv, Hl.
  unfold ask_openai. split.
  - intros Ht.
    destruct (search_field_step lib net
                (normalize_company user_text ++ " official site")%string
                (dict_get ai "official_website") h1) as (o & h2 & Es & _).
    exists o, h2. split; [exact Es|].
    run_with Hai. rewrite Hc, Ht. tidy. rewrite Ht. tidy.
    unfold search_fallback.
    run_with Es.
    run_with (search_field_kept lib net
                (normalize_company user_text ++ " careers site")%string
                _ h2 Htc).
    reflexivity.
  - intros h1' Ht Hs.
    destruct (search_field_step lib net
                (normalize_company user_text ++ " official site")%string
                PNone h1') as (o & h2 & Es & _).
    exists o, h2. split; [exact Es|].
    run_with Hai. rewrite Hc, Ht.
    run_with Hs. cbn [truthy]. tidy.
    unfold search_fallback.
    run_with Es.
    run_with (search_field_kept lib net
                (normalize_company user_text ++ " careers site")%string
                _ h2 Htc).
    reflexivity.
Qed.

(** X15: with no API key, for an input that is neither a valid URL nor a
    popular name, when both searches give no result link the orchestrator
    returns both fields absent; the trace holds the hint and the empty
    resolver output, and exactly the two search requests are issued, the
    official-site query first. *)
Theorem nothing_found (user_text : string) (h : History) :
  openai_api_key cfg = "" ->
  is_valid_url lib user_text = false ->
  popular_lookup (normalize_company user_text) = None ->
  let hint := normalize_company user_text in
  let q1 := (hint ++ " official site")%string in
  let q2 := (hint ++ " careers site")%string in
  first_result lib net q1 h = None ->
  first_result lib net q2 (h ++ [ReqSearch q1]) = None ->
  best_urls_from_all_signals lib net cfg user_text h
  = (Ok (PNone, PNone, [("hint", PStr hint); ("openai_raw", PDict [])]),
     h ++ [ReqSearch q1; ReqSearch q2]).
Proof.
  intros Hkey Hv Hl. cbv zeta. intros Hr1 Hr2.
  assert (Hclient : client cfg = false).
  { unfold client. rewrite Hkey. reflexivity. }
  unfold best_urls_from_all_signals. rewrite Hv, Hl.
  unfold ask_openai.
  run_with (resolver_without_client lib net cfg user_text h Hclient).
  cbn [dict_get truthy]. tidy. cbn [truthy]. tidy.
  unfold search_fallback.
  run_with (search_field_no_result _ PNone h eq_refl Hr1).
  run_with (search_field_no_result _ PNone _ eq_refl Hr2).
  rewrite <- app_assoc. reflexivity.
Qed.

(** X16: every name of the popular-domain table, typed in any letter case
    and with any whitespace around it, resolves to its own homepage: no key
    of the table is hidden by an earlier key, and normalization leaves the
    keys as they are. *)
Theorem popular_names_resolve (user_text key dom : string) (h : History) :
  In (key, dom) POPULAR_DOMAINS ->
  PyStr.lower (PyStr.strip user_text) = key ->
  is_valid_url lib user_text = false ->
  (forall p, In p COMMON_CAREER_PATHS ->
             urljoin lib (slash_normalize dom) p <> None) ->
  normalize_company user_text = key
  /\ exists careers h',
       best_urls_from_all_signals lib net cfg user_text h
       = (Ok (PStr dom, careers, [("mode", PStr "popular_map")]), h').
Proof.
  intros Hin Hlow Hv Hj.
  assert (Hn : normalize_company user_text = key
               /\ popular_lookup key = Some (key, dom)).
  { unfold normalize_company. rewrite Hlow. simpl in Hin.
    repeat (destruct Hin as [E|Hin];
            [injection E as <- <-; split; reflexivity|]).
    contradiction. }
  destruct Hn as [Hn Hk]. split; [exact Hn|].
  apply (popular_branch_run lib net cfg user_text key dom);
    [exact Hv|rewrite Hn; exact Hk|exact Hj].
Qed.

(** X18: when the language model proposes an official site and a careers
    URL that both pass the probe, the orchestrator returns exactly this
    pair: after the resolver the only requests are the two probes, with no
    path discovery and no search. *)
Theorem llm_pair_accepted (user_text official careers : string) (ai : pydict)
    (h h1 h2 h3 : History) :
  is_valid_url lib user_text = false ->
  popular_lookup (normalize_company user_text) = None ->
  openai_guess_company_and_urls lib net cfg user_text h = (Ok ai, h1) ->
  dict_get ai "official_website" = PStr official ->
  dict_get ai "careers_url" = PStr careers ->
  official <> "" ->
  careers <> "" ->
  safe_head net official h1 = (Ok true, h2) ->
  safe_head net careers h2 = (Ok true, h3) ->
  best_urls_from_all_signals lib net cfg user_text h
  = (Ok (PStr official, PStr careers,
         [("hint", PStr (normalize_company user_text));
          ("openai_raw", PDict ai)]), h3).
Proof.
  intros Hv Hl Hai Ho Hc Hno Hnc Hso Hsc.
  pose proof (nonempty_truthy official Hno) as Hto.
  pose proof (nonempty_truthy careers Hnc) as Htc.
  unfold best_urls_from_all_signals. rewrite Hv, Hl.
  unfold ask_openai.
  run_with Hai. rewrite Ho, Hc, Hto. tidy.
  run_with Hso. rewrite Hto, Htc. tidy.
  run_with Hsc.
  unfold search_fallback.
  run_with (search_field_kept lib net
              (normalize_company user_text ++ " official site")%string
              _ h3 Hto).
  run_with (search_field_kept lib net
              (normalize_company user_text ++ " careers site")%string
              _ h3 Htc).
  reflexivity.
Qed.

(** X19: when the official site of the language model passes the probe
    and its careers value is missing or fails the probe, a careers URL
    that the discoverer finds on the official site is the careers result,
    in place of the value of the language model, and no search is
    issued. *)
Theorem llm_careers_replaced (user_text official found : string)
    (ai : pydict) (h h1 h2 h2' h3 : History) :
  is_valid_url lib user_text = false ->
  popular_lookup (normalize_company user_text) = None ->
  openai_guess_company_and_urls lib net cfg user_text h = (Ok ai, h1) ->
  dict_get ai "official_website" = PStr official ->
  official <> "" ->
  safe_head net official h1 = (Ok true, h2) ->
  (truthy (dict_get ai "careers_url") = false /\ h2' = h2)
  \/ (truthy (dict_get ai "careers_url") = true
      /\ safe_head_value net (dict_get ai "careers_url") h2 = (Ok false, h2')) ->
  discover_careers_from_domain lib net official h2' = (Ok (Some found), h3) ->
  found <> "" ->
  best_urls_from_all_signals lib net cfg user_text h
  = (Ok (PStr official, PStr found,
         [("hint", PStr (normalize_company user_text));
          ("openai_raw", PDict ai)]), h3).
Proof.
  intros Hv Hl Hai Ho Hno Hso Hcase Hd Hnf.
  pose proof (nonempty_truthy official Hno) as Hto.
  pose proof (nonempty_truthy found Hnf) as Htf.
  unfold best_urls_from_all_signals. rewrite Hv, Hl.
  unfold ask_openai.
  run_with Hai. rewrite Ho, Hto. tidy.
  run_with Hso. rewrite Hto.
  assert (Hfinish :
            bind (search_fallback lib net (normalize_company user_text)
                    (PStr official) (PStr found))
              (fun x : pyval * pyval =>
                 let (official0, careers0) := x in
                 ret (official0, careers0,
                      [("hint", PStr (normalize_company user_text));
                       ("openai_raw", PDict ai)])) h3
            = (Ok (PStr official, PStr found,
                   [("hint", PStr (normalize_company user_text));
                    ("openai_raw", PDict ai)]), h3)).
  { unfold search_fallback.
    run_with (search_field_kept lib net
                (normalize_company user_text ++ " official site")%string
                _ h3 Hto).
    run_with (search_field_kept lib net
                (normalize_company user_text ++ " careers site")%string
                _ h3 Htf).
    reflexivity. }
  destruct Hcase as [[Htc ->]|[Htc Hsc]]; rewrite Htc; tidy.
  - run_with Hd. unfold py_or. cbn [py_of_opt]. rewrite Htf. exact Hfinish.
  - run_with Hsc. run_with Hd. unfold py_or. cbn [py_of_opt]. rewrite Htf.
    exact Hfinish.
Qed.

End LanguageModelBranchFacts.

(** ** Instances of the further properties *)

Section FurtherInstances.

Import Worlds Scenes.

(** "Acme Inc" gives "acme". *)
Lemma normalize_company_suffix_witness :
  normalize_company "Acme Inc" = "acme".
Proof.
  apply (normalize_company_suffix "Acme" "Inc").
  - discriminate.
  - reflexivity.
  - simpl. intuition discriminate.
  - simpl. tauto.
Defined.

(** The discoverer on the site where only "jobs" is reachable. *)
Lemma discover_result_probed_witness :
  exists ref h0,
    urljoin lib_plain (slash_normalize "https://example.com") ref
    = Some "https://example.com/jobs"
    /\ safe_head net_jobs "https://example.com/jobs" h0
       = (Ok true,
          [ ReqHead "https://example.com/careers";
            ReqGet "https://example.com/careers";
            ReqHead "https://example.com/jobs" ]).
Proof.
  apply (discover_result_probed lib_plain net_jobs "https://example.com"
           "https://example.com/jobs" []).
  vm_compute. reflexivity.
Defined.

(** The homepage whose first careers anchor has an [href] that cannot be
    joined: the reachable anchor after it is not found. *)
Lemma scan_homepage_bad_href_witness :
  probes_as net_homepage "https://example.com/work" true
  /\ scan_homepage lib_homepage net_homepage "https://example.com/" []
     = (Ok None, [] ++ [ReqGet "https://example.com/"]).
Proof.
  split; [intros h; rewrite safe_head_run; reflexivity|].
  apply (scan_homepage_bad_href lib_homepage net_homepage
           "https://example.com/" homepage 200%Z []
           [mkAnchor "/work" "Jobs"] (mkAnchor "http://[bad" "Careers") []).
  - reflexivity.
  - reflexivity.
  - reflexivity.
  - intros b [].
  - reflexivity.
  - reflexivity.
Defined.

(** A pasted URL whose path does not mention careers. *)
Lemma direct_branch_yields_both_witness :
  exists parsed careers new,
    urlparse lib_plain "https://example.com/about" = Some parsed
    /\ best_urls_from_all_signals lib_plain net_jobs Demo.without_key
         "https://example.com/about" []
       = (Ok (PStr (scheme parsed ++ "://" ++ netloc parsed), PStr careers,
              [("mode", PStr "direct_url")]), [] ++ new)
    /\ careers <> ""
    /\ forallb is_probe_request new = true
    /\ (prefix "http://" (scheme parsed ++ "://" ++ netloc parsed) = true
        \/ prefix "https://" (scheme parsed ++ "://" ++ netloc parsed) = true).
Proof.
  apply (direct_branch_yields_both lib_plain net_jobs Demo.without_key
           "https://example.com/about" []).
  - reflexivity.
  - discriminate.
  - intros parsed p E. vm_compute in E. injection E as <-.
    apply demo_joins_succeed; [vm_compute; discriminate|reflexivity].
Defined.


(** "Nvidia" never reaches the language model. *)
Lemma no_llm_before_step_two_witness :
  exists new,
    snd (best_urls_from_all_signals lib_nvidia net_nvidia Demo.with_key
           "Nvidia" []) = [] ++ new
    /\ forallb (fun q => negb (is_llm_request q)) new = true.
Proof.
  apply (no_llm_before_step_two lib_nvidia net_nvidia Demo.with_key
           "Nvidia" []).
  right. discriminate.
Defined.

(** The official site of the language model in the world of the stale
    careers URL. *)
Lemma llm_branch_official_probed_witness :
  exists url h0 h1 before after,
    PStr "https://acme.example" = PStr url
    /\ safe_head net_stale url h0 = (Ok true, h1)
    /\ h0 = [] ++ before
    /\ [ ReqChat "gpt-4.1-mini" (user_msg "acme robotics") true;
         ReqHead "https://acme.example";
         ReqHead "https://acme.example/old-jobs";
         ReqGet "https://acme.example/old-jobs";
         ReqHead "https://acme.example/careers";
         ReqGet "https://acme.example/careers";
         ReqHead "https://acme.example/jobs";
         ReqGet "https://acme.example/jobs";
         ReqHead "https://acme.example/company/careers";
         ReqGet "https://acme.example/company/careers";
         ReqHead "https://acme.example/about/careers";
         ReqGet "https://acme.example/about/careers";
         ReqHead "https://acme.example/about-us/careers";
         ReqGet "https://acme.example/about-us/careers";
         ReqHead "https://acme.example/career";
         ReqGet "https://acme.example/career";
         ReqHead "https://acme.example/join-us";
         ReqGet "https://acme.example/join-us";
         ReqHead "https://acme.example/work-with-us";
         ReqGet "https://acme.example/work-with-us";
         ReqGet "https://acme.example/" ] = h1 ++ after.
Proof.
  eapply (llm_branch_official_probed lib_stale net_stale Demo.with_key
            "acme robotics" []).
  - reflexivity.
  - reflexivity.
  - vm_compute. reflexivity.
  - reflexivity.
Defined.

(** A careers URL proposed without an official site. *)
Lemma llm_careers_unprobed_witness :
  exists official h2,
    search_field lib_careers_only net_careers_only
      (normalize_company "acme robotics" ++ " official site") (PStr "")
      [ReqChat "gpt-4.1-mini" (user_msg "acme robotics") true]
    = (Ok official, h2)
    /\ best_urls_from_all_signals lib_careers_only net_careers_only
         Demo.with_key "acme robotics" []
       = (Ok (official, PStr "https://acme.example/jobs",
              [("hint", PStr (normalize_company "acme robotics"));
               ("openai_raw",
                PDict (triple (map (fun kv => (fst kv, PStr (snd kv)))
                                 careers_only)))]), h2).
Proof.
  apply (proj1 (llm_careers_unprobed lib_careers_only net_careers_only
                  Demo.with_key "acme robotics" "https://acme.example/jobs"
                  (triple (map (fun kv => (fst kv, PStr (snd kv)))
                             careers_only))
                  [] [ReqChat "gpt-4.1-mini" (user_msg "acme robotics") true]
                  eq_refl eq_refl eq_refl eq_refl
                  ltac:(discriminate))).
  reflexivity.
Defined.

(** An unknown name with no key, nothing reachable and no search result. *)
Lemma nothing_found_witness :
  best_urls_from_all_signals lib_plain net_offline Demo.without_key
    "some unlisted startup xyz" []
  = (Ok (PNone, PNone,
         [("hint", PStr "some unlisted startup xyz");
          ("openai_raw", PDict [])]),
     [ ReqSearch "some unlisted startup xyz official site";
       ReqSearch "some unlisted startup xyz careers site" ]).
Proof.
  apply (nothing_found lib_plain net_offline Demo.without_key
           "some unlisted startup xyz" []); reflexivity.
Defined.

(** " NVIDIA " resolves to the homepage of nvidia. *)
Lemma popular_names_resolve_witness :
  normalize_company " NVIDIA " = "nvidia"
  /\ exists careers h',
       best_urls_from_all_signals lib_plain net_offline Demo.without_key
         " NVIDIA " []
       = (Ok (PStr "https://www.nvidia.com", careers,
              [("mode", PStr "popular_map")]), h').
Proof.
  apply (popular_names_resolve lib_plain net_offline Demo.without_key
           " NVIDIA " "nvidia" "https://www.nvidia.com" []).
  - simpl. tauto.
  - reflexivity.
  - reflexivity.
  - apply demo_joins_succeed; [vm_compute; discriminate|reflexivity].
Defined.

(** The pair of the language model when both URLs are reachable. *)
Lemma llm_pair_accepted_witness :
  exists h3,
    best_urls_from_all_signals lib_objects net_both_reachable Demo.with_key
      "acme robotics" []
    = (Ok (PStr "https://acme.example", PStr "https://acme.example/careers",
           [("hint", PStr (normalize_company "acme robotics"));
            ("openai_raw",
             PDict (triple (map (fun kv => (fst kv, PStr (snd kv))) acme)))]),
       h3).
Proof.
  eexists.
  eapply (llm_pair_accepted lib_objects net_both_reachable Demo.with_key
            "acme robotics" "https://acme.example"
            "https://acme.example/careers").
  - reflexivity.
  - reflexivity.
  - vm_compute. reflexivity.
  - reflexivity.
  - reflexivity.
  - discriminate.
  - discriminate.
  - vm_compute. reflexivity.
  - vm_compute. reflexivity.
Defined.

(** The stale careers URL of the language model replaced by the path the
    discoverer finds. *)
Lemma llm_careers_replaced_witness :
  exists h3,
    best_urls_from_all_signals lib_stale net_stale_with_path Demo.with_key
      "acme robotics" []
    = (Ok (PStr "https://acme.example", PStr "https://acme.example/careers",
           [("hint", PStr (normalize_company "acme robotics"));
            ("openai_raw",
             PDict (triple (map (fun kv => (fst kv, PStr (snd kv))) stale)))]),
       h3).
Proof.
  eexists.
  eapply (llm_careers_replaced lib_stale net_stale_with_path Demo.with_key
            "acme robotics" "https://acme.example"
            "https://acme.example/careers").
  - reflexivity.
  - reflexivity.
  - vm_compute. reflexivity.
  - reflexivity.
  - discriminate.
  - vm_compute. reflexivity.
  - right. split; [reflexivity|]. vm_compute. reflexivity.
  - vm_compute. reflexivity.
  - discriminate.
Defined.

End FurtherInstances.

(** ** Hosts and network locations *)

Section NetlocInstances.

Import Worlds.

(** C7, counterexample: "http://:80/x" and "http://@/x" parse with scheme
    http and a network location that is not empty (":80", "@") but holds no
    host; [is_valid_url] accepts both. *)
Lemma valid_url_with_empty_host :
  urlparse lib_plain "http://:80/x" = Some (mkParse "http" ":80" "/x")
  /\ Netloc.hostname ":80" = None
  /\ is_valid_url lib_plain "http://:80/x" = true
  /\ urlparse lib_plain "http://@/x" = Some (mkParse "http" "@" "/x")
  /\ Netloc.hostname "@" = None
  /\ is_valid_url lib_plain "http://@/x" = true.
Proof. repeat split. Qed.

(** C8, counterexample: for "https://user:pw@example.com:8443/careers" the
    host is "example.com" and the port 8443, yet the official site is
    "https://user:pw@example.com:8443": neither the scheme with the host
    nor the scheme with the host and the port, the credentials are kept. *)
Lemma official_keeps_user_information :
  let input := "https://user:pw@example.com:8443/careers" in
  let location := "user:pw@example.com:8443" in
  urlparse lib_plain input = Some (mkParse "https" location "/careers")
  /\ Netloc.hostname location = Some "example.com"
  /\ Netloc.port_suffix location = ":8443"
  /\ best_urls_from_all_signals lib_plain net_offline Demo.without_key input []
     = (Ok (PStr "https://user:pw@example.com:8443", PStr input,
            [("mode", PStr "direct_url")]), [])
  /\ "https://user:pw@example.com:8443" <> "https://example.com"
  /\ "https://user:pw@example.com:8443" <> "https://example.com:8443".
Proof.
  cbv zeta. repeat split; try reflexivity; discriminate.
Qed.

End NetlocInstances.

(** ** Hints of ASCII inputs *)

Section HintInstances.

(** The hint of "  Acme   Holdings  " is tidy. *)
Lemma normalize_company_tidy_witness :
  tidy_hint (normalize_company "  Acme   Holdings  ") = true.
Proof. apply (normalize_company_tidy "  Acme   Holdings  "). reflexivity. Defined.

(** The hint of "Goldman Sachs" is in lower case. *)
Lemma normalize_company_lower_witness :
  PyStr.lower (normalize_company "Goldman Sachs")
  = normalize_company "Goldman Sachs".
Proof. apply (normalize_company_lower "Goldman Sachs"). reflexivity. Defined.

(** " Goldman SACHS " in lower case or stripped gives the same hint. *)
Lemma normalize_company_insensitive_witness :
  normalize_company (PyStr.lower " Goldman SACHS ")
  = normalize_company " Goldman SACHS "
  /\ normalize_company (PyStr.strip " Goldman SACHS ")
     = normalize_company " Goldman SACHS ".
Proof.
  apply (normalize_company_insensitive " Goldman SACHS "). reflexivity.
Defined.

End HintInstances.
